(** * CBRAIN-CAM: the dataset loader and the batch generator

    A shallow embedding of [keras/data_generator.py]: the classes [DataSet]
    and [DataGenerator], the part of h5py and NumPy they call, and the
    properties of the loaded arrays and of the batches [generate] yields.

    Layout: the numeric and array model (IEEE binary32/binary64 values from
    the Standard Library's [SpecFloat], arrays tagged with their dtype), the
    store of HDF5 files, the two classes as they are written, then the
    theorems. *)

From Stdlib Require Import ZArith List Lia.
From Stdlib Require Import Floats.SpecFloat.
From stdpp Require Import gmap strings list fin_maps.
Import ListNotations.

Local Open Scope string_scope.
Local Open Scope nat_scope.

(** ** Exceptions and fallible computations *)

(** The Python exceptions the two classes can raise. *)
Inductive exn : Type :=
| AssertionError (msg : string)
| OSError (fn : string)
| KeyError (key : string)
| IndexError
| ValueError
| TypeError
| ZeroDivisionError
| OverflowError
| MemoryError.

Inductive result (A : Type) : Type :=
| Ok (a : A)
| Raise (e : exn).
Arguments Ok {A} a.
Arguments Raise {A} e.

Global Instance result_ret : MRet result := fun A a => Ok a.
Global Instance result_bind : MBind result := fun A B f m =>
  match m with Ok a => f a | Raise e => Raise e end.
Global Instance result_fmap : FMap result := fun A B f m =>
  match m with Ok a => Ok (f a) | Raise e => Raise e end.

(** ** Floating-point values and dtypes *)

(** The two floating dtypes the arrays of the data files have. *)
Inductive np_dtype : Type := float32 | float64.

Global Instance np_dtype_eq_dec : EqDecision np_dtype.
Proof. solve_decision. Defined.

Definition prec (dt : np_dtype) : Z :=
  match dt with float32 => 24%Z | float64 => 53%Z end.
Definition emax (dt : np_dtype) : Z :=
  match dt with float32 => 128%Z | float64 => 1024%Z end.

(** NumPy's promotion of two floating dtypes: the wider one. *)
Definition result_type (a b : np_dtype) : np_dtype :=
  match a, b with
  | float32, float32 => float32
  | _, _ => float64
  end.

(** Element arithmetic, correctly rounded in the dtype of the result. *)
Definition fsub (dt : np_dtype) (x y : spec_float) : spec_float :=
  SFsub (prec dt) (emax dt) x y.
Definition fdiv (dt : np_dtype) (x y : spec_float) : spec_float :=
  SFdiv (prec dt) (emax dt) x y.
Definition fmul (dt : np_dtype) (x y : spec_float) : spec_float :=
  SFmul (prec dt) (emax dt) x y.

(** Conversion of a value to a dtype: rounding to nearest even in the
    target format (exact on the values the format has). *)
Definition fcast (dt : np_dtype) (x : spec_float) : spec_float :=
  match x with
  | S754_finite s m e =>
      binary_normalize (prec dt) (emax dt) (cond_Zopp s (Zpos m)) e s
  | _ => x
  end.

(** The Python float literals [1000.] and [2.5e6]. *)
Definition py_1000 : spec_float := S754_finite false 1000 0.
Definition py_2_5e6 : spec_float := S754_finite false 2500000 0.

(** The integer [n] as an exact value: mantissa [n], exponent 0. *)
Definition fl (n : Z) : spec_float :=
  match n with
  | Z0 => S754_zero false
  | Zpos p => S754_finite false p 0
  | Zneg p => S754_finite true p 0
  end.

(** A quotient too large for a float raises OverflowError. *)
Definition float_or_overflow (x : spec_float) : result spec_float :=
  match x with
  | S754_infinity _ => Raise OverflowError
  | _ => Ok x
  end.

(** [a / b] on two Python ints: the quotient of the two exact values,
    rounded once to binary64. A zero divisor raises ZeroDivisionError. *)
Definition int_true_div (a b : nat) : result spec_float :=
  if b =? 0 then Raise ZeroDivisionError
  else float_or_overflow (SFdiv 53 1024 (fl (Z.of_nat a)) (fl (Z.of_nat b))).

(** [int(x)] on a Python float: truncation toward zero. *)
Definition py_int (x : spec_float) : result Z :=
  match x with
  | S754_zero _ => Ok 0%Z
  | S754_finite s m e =>
      Ok (cond_Zopp s (if (0 <=? e)%Z then (Zpos m * 2 ^ e)%Z
                       else (Zpos m / 2 ^ (- e))%Z))
  | S754_infinity _ => Raise OverflowError
  | S754_nan => Raise ValueError
  end.

(** The dtype a rank-0 operand brings to an operation with an array.
    The code reads the statistics with h5py's [.value], which only the
    releases of h5py for NumPy 1 have, so promotion is NumPy 1's: an
    operand of rank 0 counts by its value, not by its dtype. A float64
    scalar counts as one of float32 or narrower when it is not finite or
    lies strictly between -3.4e38 and 3.4e38; [3.4e38] is the double
    [8999725064576941 * 2 ^ 75]. *)
Definition below_3_4e38 (m : positive) (e : Z) : bool :=
  if (75 <=? e)%Z then (Zpos m * 2 ^ (e - 75) <? 8999725064576941)%Z
  else (Zpos m <? 8999725064576941 * 2 ^ (75 - e))%Z.

Definition min_scalar_type (dt : np_dtype) (x : spec_float) : np_dtype :=
  match dt, x with
  | float64, S754_finite _ m e => if below_3_4e38 m e then float32 else float64
  | _, _ => float32
  end.

(** ** Arrays *)

(** A rank-2 array of shape [(length m_rows, m_ncols)], row-major. *)
Record mat : Type := Mat {
  m_dtype : np_dtype;
  m_ncols : nat;
  m_rows : list (list spec_float)
}.

(** A rank-3 array of shape [(length a3_data, a3_d1, a3_d2)]. *)
Record arr3 : Type := Arr3 {
  a3_dtype : np_dtype;
  a3_d1 : nat;
  a3_d2 : nat;
  a3_data : list (list (list spec_float))
}.

(** The arrays of the data files: rank 0 (a scalar statistic), rank 1
    ([sample], or a per-level statistic) and rank 2 ([level, sample]). *)
Inductive ndarray : Type :=
| Arr0 (dt : np_dtype) (x : spec_float)
| Arr1 (dt : np_dtype) (xs : list spec_float)
| Arr2 (m : mat).

Definition wf_mat (m : mat) : Prop :=
  Forall (fun r => length r = m_ncols m) (m_rows m).

Definition wf_ndarray (a : ndarray) : Prop :=
  match a with Arr2 m => wf_mat m | _ => True end.

Definition nd_dtype (a : ndarray) : np_dtype :=
  match a with Arr0 dt _ => dt | Arr1 dt _ => dt | Arr2 m => m_dtype m end.

(** [a.shape] *)
Definition shape (a : ndarray) : list nat :=
  match a with
  | Arr0 _ _ => []
  | Arr1 _ xs => [length xs]
  | Arr2 m => [length (m_rows m); m_ncols m]
  end.

(** [a.shape[k]]: a tuple index out of range raises IndexError. *)
Definition shape_at (a : ndarray) (k : nat) : result nat :=
  match shape a !! k with
  | Some n => Ok n
  | None => Raise IndexError
  end.

(** Transposition of [rows], each of length [ncols]: row [j] of the result
    collects the [j]-th element of every row. *)
Fixpoint transpose {A} (ncols : nat) (rows : list (list A)) : list (list A) :=
  match rows with
  | [] => replicate ncols []
  | r :: rs => zip_with cons r (transpose ncols rs)
  end.

(** [m.T] *)
Definition mat_T (m : mat) : mat :=
  Mat (m_dtype m) (length (m_rows m)) (transpose (m_ncols m) (m_rows m)).

(** [a.T]: reverses the axes, so arrays of rank below 2 are unchanged. *)
Definition nd_T (a : ndarray) : ndarray :=
  match a with
  | Arr2 m => Arr2 (mat_T m)
  | _ => a
  end.

(** [np.atleast_2d(a)]: shape [()] becomes [(1, 1)], [(n,)] becomes
    [(1, n)]. *)
Definition atleast_2d (a : ndarray) : mat :=
  match a with
  | Arr0 dt x => Mat dt 1 [[x]]
  | Arr1 dt xs => Mat dt (length xs) [xs]
  | Arr2 m => m
  end.

(** Broadcasting of one dimension against another. *)
Definition bdim (a b : nat) : result nat :=
  if a =? b then Ok a
  else if a =? 1 then Ok b
  else if b =? 1 then Ok a
  else Raise ValueError.

(** A length-1 axis is repeated to the broadcast length. *)
Definition stretch {A} (n : nat) (l : list A) : list A :=
  match l with
  | [x] => replicate n x
  | _ => l
  end.

(** The dtype an operand brings to an operation with an array: its own,
    or for a rank-0 operand the one of its value. *)
Definition operand_dtype (b : ndarray) : np_dtype :=
  match b with
  | Arr0 dt x => min_scalar_type dt x
  | _ => nd_dtype b
  end.

(** The operand as the operation in dtype [dt] reads it: a float64 scalar
    is rounded to float32 before an operation in float32. (The other
    conversions widen, and leave the value as it is.) *)
Definition operand_cast (dt : np_dtype) (b : ndarray) : ndarray :=
  match b, dt with
  | Arr0 float64 x, float32 => Arr0 float32 (fcast float32 x)
  | _, _ => b
  end.

(** Element-wise binary operation of a rank-2 array with an array of rank
    at most 2, under NumPy's broadcasting: the shape of the second operand
    is padded with 1 on the left, each axis of length 1 is stretched, and
    two lengths that differ with neither equal to 1 raise ValueError. The
    operation is computed in the promoted dtype, on the operands converted
    to it. *)
Definition broadcast2 (op : np_dtype -> spec_float -> spec_float -> spec_float)
    (a : mat) (b : ndarray) : result mat :=
  let dt := result_type (m_dtype a) (operand_dtype b) in
  let b := atleast_2d (operand_cast dt b) in
  nr ← bdim (length (m_rows a)) (length (m_rows b));
  nc ← bdim (m_ncols a) (m_ncols b);
  mret (Mat dt nc
          (zip_with (fun ra rb => zip_with (op dt) (stretch nc ra) (stretch nc rb))
             (stretch nr (m_rows a)) (stretch nr (m_rows b)))).

Definition np_sub : mat -> ndarray -> result mat := broadcast2 fsub.
Definition np_div : mat -> ndarray -> result mat := broadcast2 fdiv.

(** [np.asarray(m, dtype=dt)] *)
Definition astype (dt : np_dtype) (m : mat) : mat :=
  Mat dt (m_ncols m) (map (map (fcast dt)) (m_rows m)).

Definition astype3 (dt : np_dtype) (a : arr3) : arr3 :=
  Arr3 dt (a3_d1 a) (a3_d2 a) (map (map (map (fcast dt))) (a3_data a)).

Definition nd_astype (dt : np_dtype) (a : ndarray) : ndarray :=
  match a with
  | Arr0 _ x => Arr0 dt (fcast dt x)
  | Arr1 _ xs => Arr1 dt (map (fcast dt) xs)
  | Arr2 m => Arr2 (astype dt m)
  end.

(** [a * c] for a Python float [c]: the array keeps its dtype. *)
Definition nd_scale (a : ndarray) (c : spec_float) : ndarray :=
  match a with
  | Arr0 dt x => Arr0 dt (fmul dt x c)
  | Arr1 dt xs => Arr1 dt (map (fun x => fmul dt x c) xs)
  | Arr2 m =>
      Arr2 (Mat (m_dtype m) (m_ncols m)
              (map (map (fun x => fmul (m_dtype m) x c)) (m_rows m)))
  end.

(** The dtype of a concatenation or stack: the promotion of all parts. *)
Definition common_dtype (m0 : mat) (ms : list mat) : np_dtype :=
  foldl (fun dt m => result_type dt (m_dtype m)) (m_dtype m0) ms.

(** [np.concatenate(l, axis=1)] of rank-2 arrays: the arrays must agree on
    the number of rows, and the list must not be empty. *)
Definition concatenate_axis1 (l : list mat) : result mat :=
  match l with
  | [] => Raise ValueError
  | m0 :: ms =>
      let n := length (m_rows m0) in
      if forallb (fun m => length (m_rows m) =? n) ms
      then Ok (Mat (common_dtype m0 ms)
                 (sum_list_with m_ncols l)
                 (foldr (fun m acc => zip_with app (m_rows m) acc)
                    (replicate n []) l))
      else Raise ValueError
  end.

(** [np.stack(l, axis=-1)] of rank-2 arrays: the arrays must have one
    shape, and the list must not be empty. Element [[s][z][k]] of the
    result is element [[s][z]] of the [k]-th array. *)
Definition stack_last (l : list mat) : result arr3 :=
  match l with
  | [] => Raise ValueError
  | m0 :: ms =>
      let n := length (m_rows m0) in
      let c := m_ncols m0 in
      if forallb (fun m => (length (m_rows m) =? n) && (m_ncols m =? c)) ms
      then Ok (Arr3 (common_dtype m0 ms) c (length l)
                 (map (transpose c) (transpose n (map m_rows l))))
      else Raise ValueError
  end.

(** [np.concatenate([a, b], axis=0)]: the arrays must have one rank, at
    least 1, and agree on every axis but the first. *)
Definition concatenate_axis0 (a b : ndarray) : result ndarray :=
  match a, b with
  | Arr1 da xs, Arr1 db ys => Ok (Arr1 (result_type da db) (xs ++ ys))
  | Arr2 ma, Arr2 mb =>
      if m_ncols ma =? m_ncols mb
      then Ok (Arr2 (Mat (result_type (m_dtype ma) (m_dtype mb)) (m_ncols ma)
                       (m_rows ma ++ m_rows mb)))
      else Raise ValueError
  | _, _ => Raise ValueError
  end.

(** [l[a:b]] for [0 <= a <= b]: the slice is clipped to the list. *)
Definition slice {A} (a b : nat) (l : list A) : list A :=
  take (b - a) (drop a l).

(** [l[idx]] for a list of indices [idx]: an index out of range raises
    IndexError. *)
Definition take_idx {A} (idx : list nat) (l : list A) : result (list A) :=
  mapM (fun k => match l !! k with
                 | Some x => Ok x
                 | None => Raise IndexError
                 end) idx.

(** Slicing and indexing along the first axis. *)
Definition mat_slice (a b : nat) (m : mat) : mat :=
  Mat (m_dtype m) (m_ncols m) (slice a b (m_rows m)).

Definition arr3_slice (a b : nat) (t : arr3) : arr3 :=
  Arr3 (a3_dtype t) (a3_d1 t) (a3_d2 t) (slice a b (a3_data t)).

Definition nd_slice (a b : nat) (t : ndarray) : result ndarray :=
  match t with
  | Arr0 _ _ => Raise IndexError
  | Arr1 dt xs => Ok (Arr1 dt (slice a b xs))
  | Arr2 m => Ok (Arr2 (mat_slice a b m))
  end.

Definition mat_take (idx : list nat) (m : mat) : result mat :=
  rows ← take_idx idx (m_rows m);
  mret (Mat (m_dtype m) (m_ncols m) rows).

Definition arr3_take (idx : list nat) (t : arr3) : result arr3 :=
  d ← take_idx idx (a3_data t);
  mret (Arr3 (a3_dtype t) (a3_d1 t) (a3_d2 t) d).

Definition nd_take (idx : list nat) (t : ndarray) : result ndarray :=
  match t with
  | Arr0 _ _ => Raise IndexError
  | Arr1 dt xs => xs' ← take_idx idx xs; mret (Arr1 dt xs')
  | Arr2 m => m' ← mat_take idx m; mret (Arr2 m')
  end.

(** [np.arange(0, stop, step)] for a positive step: the multiples of
    [step] below [stop]. *)
Definition arange_step (stop step : nat) : list nat :=
  map (fun k => k * step) (seq 0 ((stop + step - 1) / step)).

(** [np.arange(n)] *)
Definition arange (n : nat) : list nat := seq 0 n.

(** The allocation of the [count] int64 elements of an index array: 8
    bytes an element. From [2 ^ 60] elements on the byte count leaves the
    range of a signed 64-bit size and NumPy raises ValueError; from
    [2 ^ 53] elements on the array takes 64 PiB or more, beyond the
    address space of a process, and the allocation raises MemoryError. *)
Definition alloc_int64 (count : nat) : result unit :=
  if (2 ^ 60 <=? Z.of_nat count)%Z then Raise ValueError
  else if (2 ^ 53 <=? Z.of_nat count)%Z then Raise MemoryError
  else Ok ().

(** [np.arange] as the constructor calls it: the index set, once it is
    allocated. *)
Definition np_arange (idxs : list nat) : result (list nat) :=
  _ ← alloc_int64 (length idxs); mret idxs.

(** ** The random shuffle *)

(** [x[i], x[j] = x[j], x[i]] *)
Definition swap (x : list nat) (i j : nat) : list nat :=
  match x !! i, x !! j with
  | Some a, Some b => <[i:=b]> (<[j:=a]> x)
  | _, _ => x
  end.

(** [np.random.shuffle(x)] on a rank-1 array, which is the Fisher-Yates
    loop [for i in reversed(range(1, n)): j = random_interval(i); swap].
    The generator's draws are the function [rng]: at step [i] the drawn
    index is [rng i], reduced to the interval [0..i]. *)
Fixpoint shuffle_from (rng : nat -> nat) (i : nat) (x : list nat) : list nat :=
  match i with
  | 0 => x
  | S i' => shuffle_from rng i' (swap x i (rng i mod S i))
  end.

Definition np_random_shuffle (rng : nat -> nat) (x : list nat) : list nat :=
  shuffle_from rng (length x - 1) x.

(** ** HDF5 files *)

(** A file maps variable names to arrays; the store maps file names to
    files. *)
Abbreviation h5file := (gmap string ndarray).
Abbreviation h5store := (gmap string (gmap string ndarray)).

(** [h5py.File(fn, 'r')] *)
Definition File (fs : h5store) (fn : string) : result h5file :=
  match fs !! fn with
  | Some f => Ok f
  | None => Raise (OSError fn)
  end.

(** [file[v]] *)
Definition getitem (file : h5file) (v : string) : result ndarray :=
  match file !! v with
  | Some a => Ok a
  | None => Raise (KeyError v)
  end.

(** [dataset[:]]: h5py refuses a slice of a scalar dataset. *)
Definition read_all (a : ndarray) : result ndarray :=
  match a with
  | Arr0 _ _ => Raise ValueError
  | _ => Ok a
  end.

(** [dataset.value]: the whole dataset, of any rank. *)
Definition value (a : ndarray) : ndarray := a.

(** ** The loaded feature arrays *)

(** Either the single matrix [[sample, flattened features]], or, in
    convolution mode, the pair of [[sample, z, feature]] and
    [[sample, feature]]. *)
Inductive feature_arrays : Type :=
| Flat (f : mat)
| Conv (f_2d : arr3) (f_1d : mat).

(** ** class DataSet *)

Module DataSet.

Record t : Type := {
  data_dir : string;
  out_fn : string;
  mean_fn : string;
  std_fn : string;
  convolution : bool;
  feature_names : list string;
  target_names : list string;
  dtype : np_dtype;
  n_samples : nat;
  features : feature_arrays;
  targets : ndarray
}.

(** The body of the loop over [feature_names]. *)
Definition load_feature (out_file mean_file std_file : h5file)
    (dtype : np_dtype) (v : string) : result mat :=
  raw ← getitem out_file v;
  a ← read_all raw;
  let f := mat_T (atleast_2d a) in
  mean ← getitem mean_file v;
  f ← np_sub f (value mean);
  std ← getitem std_file v;
  f ← np_div f (value std);
  mret (astype dtype f).

(** Returns the sample count it records in [self.n_samples] together
    with the features. *)
Definition __get_features (fs : h5store) (out_fn mean_fn std_fn : string)
    (feature_names : list string) (convolution : bool) (dtype : np_dtype)
    : result (nat * feature_arrays) :=
  out_file ← File fs out_fn;
  mean_file ← File fs mean_fn;
  std_file ← File fs std_fn;
  tap ← getitem out_file "TAP";
  n_samples ← shape_at tap 1;
  f_list ← mapM (load_feature out_file mean_file std_file dtype) feature_names;
  if convolution then
    let f_2d := List.filter (fun f => 1 <? m_ncols f) f_list in
    let f_1d := List.filter (fun f => m_ncols f =? 1) f_list in
    f_2d ← stack_last f_2d;
    f_1d ← concatenate_axis1 f_1d;
    mret (n_samples, Conv f_2d f_1d)
  else
    f ← concatenate_axis1 f_list;
    mret (n_samples, Flat f).

Definition __get_targets (fs : h5store) (out_fn : string) (dtype : np_dtype)
    : result ndarray :=
  out_file ← File fs out_fn;
  spdt ← getitem out_file "SPDT";
  spdt ← read_all spdt;
  spdq ← getitem out_file "SPDQ";
  spdq ← read_all spdq;
  targets ← concatenate_axis0 (nd_scale spdt py_1000) (nd_scale spdq py_2_5e6);
  mret (nd_astype dtype (nd_T targets)).

Definition __init__ (fs : h5store) (data_dir out_fn mean_fn std_fn : string)
    (feature_names target_names : list string) (convolution : bool)
    (dtype : np_dtype) : result t :=
  let out_fn := data_dir +:+ out_fn in
  let mean_fn := data_dir +:+ mean_fn in
  let std_fn := data_dir +:+ std_fn in
  '(n_samples, features) ←
    __get_features fs out_fn mean_fn std_fn feature_names convolution dtype;
  targets ← __get_targets fs out_fn dtype;
  mret {| data_dir := data_dir; out_fn := out_fn; mean_fn := mean_fn;
          std_fn := std_fn; convolution := convolution;
          feature_names := feature_names; target_names := target_names;
          dtype := dtype; n_samples := n_samples; features := features;
          targets := targets |}.

End DataSet.

(** ** class DataGenerator *)

Module DataGenerator.

Record t : Type := {
  data_dir : string;
  batch_size : nat;
  shuffle_mode : string;
  feature_names : list string;
  target_names : list string;
  convolution : bool;
  out_fn : string;
  mean_fn : string;
  std_fn : string;
  n_samples : nat;
  features : feature_arrays;
  targets : ndarray;
  n_batches : nat;
  idxs : list nat
}.

(** The body of the loop over [feature_names]. *)
Definition load_feature (out_file mean_file std_file : h5file)
    (v : string) : result mat :=
  raw ← getitem out_file v;
  a ← read_all raw;
  let f := mat_T (atleast_2d a) in
  mean ← getitem mean_file v;
  f ← np_sub f (value mean);
  std ← getitem std_file v;
  f ← np_div f (value std);
  mret f.

(** Returns the sample count it records in [self.n_samples] together
    with the features. *)
Definition __get_features (fs : h5store) (out_fn mean_fn std_fn : string)
    (feature_names : list string) (convolution : bool)
    : result (nat * feature_arrays) :=
  out_file ← File fs out_fn;
  mean_file ← File fs mean_fn;
  std_file ← File fs std_fn;
  tap ← getitem out_file "TAP";
  n_samples ← shape_at tap 1;
  f_list ← mapM (load_feature out_file mean_file std_file) feature_names;
  if convolution then
    let f_2d := List.filter (fun f => 1 <? m_ncols f) f_list in
    let f_1d := List.filter (fun f => m_ncols f =? 1) f_list in
    f_2d ← stack_last f_2d;
    f_1d ← concatenate_axis1 f_1d;
    mret (n_samples, Conv f_2d f_1d)
  else
    f ← concatenate_axis1 f_list;
    mret (n_samples, Flat f).

Definition __get_targets (fs : h5store) (out_fn : string) : result ndarray :=
  out_file ← File fs out_fn;
  spdt ← getitem out_file "SPDT";
  spdt ← read_all spdt;
  spdq ← getitem out_file "SPDQ";
  spdq ← read_all spdq;
  targets ← concatenate_axis0 (nd_scale spdt py_1000) (nd_scale spdq py_2_5e6);
  mret (nd_T targets).

Definition __init__ (fs : h5store) (data_dir out_name : string)
    (batch_size : nat) (feature_names target_names : list string)
    (shuffle_mode : string) (convolution : bool) : result t :=
  if decide (target_names = ["SPDT"; "SPDQ"]) then
    let out_fn := data_dir +:+ out_name in
    let mean_fn := data_dir +:+ "SPCAM_mean.nc" in
    let std_fn := data_dir +:+ "SPCAM_std.nc" in
    '(n_samples, features) ←
      __get_features fs out_fn mean_fn std_fn feature_names convolution;
    targets ← __get_targets fs out_fn;
    (* int(self.n_samples / batch_size): the quotient as a float,
       truncated *)
    q ← int_true_div n_samples batch_size;
    n_batches ← Z.to_nat <$> py_int q;
    idxs ← np_arange (if String.eqb shuffle_mode "batches"
                      then arange_step n_samples batch_size
                      else arange n_samples);
    mret {| data_dir := data_dir; batch_size := batch_size;
            shuffle_mode := shuffle_mode; feature_names := feature_names;
            target_names := target_names; convolution := convolution;
            out_fn := out_fn; mean_fn := mean_fn; std_fn := std_fn;
            n_samples := n_samples; features := features;
            targets := targets; n_batches := n_batches; idxs := idxs |}
  else Raise (AssertionError "No other targets implemented.").

(** *** generate *)

(** A batch [(x, y)]. *)
Definition xy : Type := feature_arrays * ndarray.

(** [batch_idx] of the branch for the other shuffle modes. *)
Definition batch_idx (self : t) (i : nat) : result (list nat) :=
  take_idx
    (slice (i * batch_size self) ((i + 1) * batch_size self) (idxs self))
    (idxs self).

(** The body of the [for] loop: the batch at position [i]. The branches
    on [self.convolution] that meet the other kind of feature arrays are
    not taken by an object [__init__] built. *)
Definition batch (self : t) (gen_idxs : list nat) (i : nat) : result xy :=
  if String.eqb (shuffle_mode self) "batches" then
    batch_idx ← match gen_idxs !! i with
                | Some b => Ok b
                | None => Raise IndexError
                end;
    x ← (if convolution self then
           match features self with
           | Conv f_2d f_1d =>
               Ok (Conv (arr3_slice batch_idx (batch_idx + batch_size self) f_2d)
                        (mat_slice batch_idx (batch_idx + batch_size self) f_1d))
           | Flat _ => Raise TypeError
           end
         else
           match features self with
           | Flat f =>
               Ok (Flat (mat_slice batch_idx (batch_idx + batch_size self) f))
           | Conv _ _ => Raise TypeError
           end);
    y ← nd_slice batch_idx (batch_idx + batch_size self) (targets self);
    mret (x, y)
  else
    batch_idx ← batch_idx self i;
    x ← (if convolution self then
           match features self with
           | Conv f_2d f_1d =>
               f_2d ← arr3_take batch_idx f_2d;
               f_1d ← mat_take batch_idx f_1d;
               mret (Conv f_2d f_1d)
           | Flat _ => Raise TypeError
           end
         else
           match features self with
           | Flat f => f ← mat_take batch_idx f; mret (Flat f)
           | Conv _ _ => Raise TypeError
           end);
    y ← nd_take batch_idx (targets self);
    mret (x, y).

(** The state of a running generator: its copy of the index set, shuffled
    or not, and the position [i] of the [for] loop. *)
Record gen_state : Type := {
  gen_idxs : list nat;
  i : nat
}.

(** [generate(shuffle)]: the code before the [while] loop. The shuffle
    draws from the global random state, here [rng]. *)
Definition generate (self : t) (shuffle : bool) (rng : nat -> nat)
    : gen_state :=
  let gen_idxs := idxs self in
  let gen_idxs := if shuffle then np_random_shuffle rng gen_idxs
                  else gen_idxs in
  {| gen_idxs := gen_idxs; i := 0 |}.

(** What one request for the next batch does: it yields a batch and moves
    on, or an exception leaves the generator, or, with no batch to loop
    over, [while True] never reaches a [yield]. *)
Inductive step : Type :=
| Yield (b : xy) (st : gen_state)
| Throw (e : exn)
| Hang.

Definition next (self : t) (st : gen_state) : step :=
  if n_batches self =? 0 then Hang
  else
    match batch self (gen_idxs st) (i st) with
    | Ok b =>
        Yield b {| gen_idxs := gen_idxs st;
                   i := if S (i st) <? n_batches self then S (i st) else 0 |}
    | Raise e => Throw e
    end.

(** The [k]-th batch the generator yields from state [st], counting from
    0, if it gets that far. *)
Fixpoint nth_yield (self : t) (st : gen_state) (k : nat) : option xy :=
  match next self st with
  | Yield b st' =>
      match k with
      | 0 => Some b
      | S k' => nth_yield self st' k'
      end
  | _ => None
  end.

End DataGenerator.

(** ** Reading the arrays, for the statements *)

(** [rows[i][j]] *)
Definition at2 {A} (rows : list (list A)) (i j : nat) : option A :=
  r ← rows !! i; r !! j.

Definition mat_at (m : mat) (i j : nat) : option spec_float :=
  at2 (m_rows m) i j.

Definition nd_at (a : ndarray) (i j : nat) : option spec_float :=
  match a with
  | Arr2 m => mat_at m i j
  | _ => None
  end.

(** The value of a stored variable at a level and a sample: storage is
    [[level, sample]], or [[sample]] for a variable of the single level 0. *)
Definition raw_at (a : ndarray) (level sample : nat) : option spec_float :=
  match a with
  | Arr0 _ _ => None
  | Arr1 _ xs => if level =? 0 then xs !! sample else None
  | Arr2 m => mat_at m level sample
  end.

Definition levels (a : ndarray) : nat :=
  match a with
  | Arr2 m => length (m_rows m)
  | _ => 1
  end.

Definition samples (a : ndarray) : nat :=
  match a with
  | Arr0 _ _ => 1
  | Arr1 _ xs => length xs
  | Arr2 m => m_ncols m
  end.

(** A statistic is a scalar or has one value per level. *)
Definition per_level (z : nat) (a : ndarray) : Prop :=
  match a with
  | Arr0 _ _ => True
  | Arr1 _ xs => length xs = z
  | Arr2 _ => False
  end.

Definition stat_at (a : ndarray) (level : nat) : option spec_float :=
  match a with
  | Arr0 _ x => Some x
  | Arr1 _ xs => xs !! level
  | Arr2 _ => None
  end.

Definition features_astype (dt : np_dtype) (f : feature_arrays)
    : feature_arrays :=
  match f with
  | Flat m => Flat (astype dt m)
  | Conv f_2d f_1d => Conv (astype3 dt f_2d) (astype dt f_1d)
  end.

(** The batch made of the samples [idx], in that order. *)
Definition features_take (idx : list nat) (f : feature_arrays)
    : result feature_arrays :=
  match f with
  | Flat m => m ← mat_take idx m; mret (Flat m)
  | Conv f_2d f_1d =>
      f_2d ← arr3_take idx f_2d;
      f_1d ← mat_take idx f_1d;
      mret (Conv f_2d f_1d)
  end.

Definition samples_at (self : DataGenerator.t) (idx : list nat)
    : result DataGenerator.xy :=
  x ← features_take idx (DataGenerator.features self);
  y ← nd_take idx (DataGenerator.targets self);
  mret (x, y).

(** Element [[i][j]] of the single feature matrix. *)
Definition flat_at (f : feature_arrays) (i j : nat) : option spec_float :=
  match f with
  | Flat m => mat_at m i j
  | Conv _ _ => None
  end.

(** How a statistic reads once it is stretched along [z] levels. *)
Definition stat_row (z : nat) (b : ndarray) : list spec_float :=
  match b with
  | Arr0 _ x => replicate z x
  | Arr1 _ xs => xs
  | Arr2 _ => []
  end.

(** The window [a:b] of the samples. *)
Definition features_slice (a b : nat) (f : feature_arrays) : feature_arrays :=
  match f with
  | Flat m => Flat (mat_slice a b m)
  | Conv f_2d f_1d => Conv (arr3_slice a b f_2d) (mat_slice a b f_1d)
  end.

(** The number of samples of a batch. *)
Definition batch_len (y : ndarray) : nat :=
  match y with
  | Arr0 _ _ => 0
  | Arr1 _ xs => length xs
  | Arr2 m => length (m_rows m)
  end.

(** ** A small data directory

    Three samples of a two-level variable [TAP] and a single-level
    variable [PS], stored in double precision, with their statistics and
    the two tendencies. *)

Definition out_nc : h5file :=
  <["TAP" := Arr2 (Mat float64 3 [[fl 1; fl 2; fl 3]; [fl 4; fl 5; fl 6]])]>
  (<["PS" := Arr1 float64 [fl 7; fl 8; fl 9]]>
  (<["SPDT" := Arr2 (Mat float64 3 [[fl 1; fl 2; fl 3]; [fl 4; fl 5; fl 6]])]>
  (<["SPDQ" := Arr2 (Mat float64 3 [[fl 10; fl 20; fl 30];
                                     [fl 40; fl 50; fl 60]])]> ∅))).

Definition mean_nc : h5file :=
  <["TAP" := Arr1 float64 [fl 1; fl 2]]> (<["PS" := Arr0 float64 (fl 1)]> ∅).

Definition std_nc : h5file :=
  <["TAP" := Arr1 float64 [fl 3; fl 7]]> (<["PS" := Arr0 float64 (fl 3)]> ∅).

Definition example_store : h5store :=
  <["data/out.nc" := out_nc]>
  (<["data/SPCAM_mean.nc" := mean_nc]>
  (<["data/SPCAM_std.nc" := std_nc]> ∅)).

(** The same directory with [TAP] removed from the output file. *)
Definition store_without_TAP : h5store :=
  <["data/out.nc" := delete "TAP" out_nc]> example_store.

(** ** Further readings and further directories *)

(** The first of the paths that the store does not have, in the order in
    which the files are opened. *)
Definition first_missing (fs : h5store) (paths : list string) : option string :=
  List.find (fun p => match fs !! p with Some _ => false | None => true end)
    paths.



(** Every array of the features has the dtype [dt]. *)
Definition features_have_dtype (dt : np_dtype) (f : feature_arrays) : Prop :=
  match f with
  | Flat m => m_dtype m = dt
  | Conv f_2d f_1d => a3_dtype f_2d = dt /\ m_dtype f_1d = dt
  end.

(** The number of samples the feature arrays hold. *)
Definition features_len (f : feature_arrays) : nat :=
  match f with
  | Flat m => length (m_rows m)
  | Conv f_2d f_1d => Nat.min (length (a3_data f_2d)) (length (m_rows f_1d))
  end.

(** Every array of the features has [n] rows, one per sample. *)
Definition features_rows (n : nat) (f : feature_arrays) : Prop :=
  match f with
  | Flat m => length (m_rows m) = n
  | Conv f_2d f_1d => length (a3_data f_2d) = n /\ length (m_rows f_1d) = n
  end.


(** The example directory with a [PS] of two samples only. *)
Definition store_short_PS : h5store :=
  <["data/out.nc" := <["PS" := Arr1 float64 [fl 7; fl 8]]> out_nc]>
    example_store.

(** The example directory with [TAP] stored by sample only. *)
Definition store_flat_TAP : h5store :=
  <["data/out.nc" := <["TAP" := Arr1 float64 [fl 1; fl 2; fl 3]]> out_nc]>
    example_store.

(** The example directory with a mean of [TAP] of three values, for two
    levels. *)
Definition store_long_mean : h5store :=
  <["data/SPCAM_mean.nc" :=
      <["TAP" := Arr1 float64 [fl 1; fl 2; fl 3]]> mean_nc]> example_store.

(** The example directory with a moistening of two samples only. *)
Definition store_short_SPDQ : h5store :=
  <["data/out.nc" :=
      <["SPDQ" := Arr2 (Mat float64 2 [[fl 10; fl 20]; [fl 40; fl 50]])]>
        out_nc]> example_store.

(** A file with [PS] in single precision, to go with the double-precision
    scalar statistics of the example directory. *)
Definition ps32_nc : h5file := <["PS" := Arr1 float32 [fl 80; fl 81]]> ∅.

(** * Properties *)

(** ** The error monad *)

Lemma bind_Ok {A B} (m : result A) (f : A -> result B) (b : B) :
  m ≫= f = Ok b <-> exists a, m = Ok a /\ f a = Ok b.
Proof.
  destruct m as [a|e]; simpl; split.
  - intros H. exists a. auto.
  - intros (a' & Ha & H). congruence.
  - discriminate.
  - intros (a' & Ha & _). discriminate.
Qed.

(** Splits a hypothesis [m ≫= f = Ok b] into its two steps. *)
Ltac inv_bind H :=
  let a := fresh "a" in
  let Ha := fresh "Ha" in
  apply bind_Ok in H; destruct H as (a & Ha & H).

Lemma mapM_fmap_result {A B C} (f : A -> result B) (g : B -> C) (l : list A) :
  mapM (fun x => g <$> f x) l = map g <$> mapM f l.
Proof.
  induction l as [|x l IH]; simpl; [reflexivity|].
  destruct (f x) as [y|e]; simpl; [|reflexivity].
  rewrite IH. destruct (mapM f l); reflexivity.
Qed.

Lemma mapM_ext_result {A B} (f g : A -> result B) (l : list A) :
  (forall x, f x = g x) -> mapM f l = mapM g l.
Proof.
  intros E. induction l as [|x l IH]; simpl; [reflexivity|].
  rewrite E, IH. reflexivity.
Qed.

Lemma mapM_all_Ok {A B} (f : A -> result B) (g : A -> B) (l : list A) :
  Forall (fun x => f x = Ok (g x)) l -> mapM f l = Ok (map g l).
Proof.
  induction 1 as [|x l Hx _ IH]; simpl; [reflexivity|].
  rewrite Hx; simpl. rewrite IH. reflexivity.
Qed.

(** ** The float quotient of two integers

    [int(a / b)] goes through a binary64 quotient. Below, the rounding of
    the Standard Library's [SFdiv] is followed step by step to show that
    it does not reach the next integer while [a] is below [2 ^ 53]. *)

Section FloatQuotient.

Local Open Scope Z_scope.

Lemma digits2_pos_bounds (p : positive) :
  2 ^ (Zpos (digits2_pos p) - 1) <= Zpos p < 2 ^ Zpos (digits2_pos p).
Proof.
  induction p as [p IH|p IH|].
  - cbn [digits2_pos]. rewrite Pos2Z.inj_succ.
    replace (Z.succ (Zpos (digits2_pos p)) - 1)
      with (Z.succ (Zpos (digits2_pos p) - 1)) by lia.
    rewrite !Z.pow_succ_r by lia. rewrite Pos2Z.inj_xI. lia.
  - cbn [digits2_pos]. rewrite Pos2Z.inj_succ.
    replace (Z.succ (Zpos (digits2_pos p)) - 1)
      with (Z.succ (Zpos (digits2_pos p) - 1)) by lia.
    rewrite !Z.pow_succ_r by lia. change (Zpos p~0) with (2 * Zpos p). lia.
  - cbn. lia.
Qed.

Lemma Zdigits2_bounds (m : Z) :
  0 < m -> 2 ^ (Zdigits2 m - 1) <= m < 2 ^ Zdigits2 m.
Proof.
  destruct m as [|p|p]; try lia. intros _. apply digits2_pos_bounds.
Qed.

Lemma Zdigits2_pos (m : Z) : 0 < m -> 0 < Zdigits2 m.
Proof. destruct m; cbn; lia. Qed.

Lemma Zdigits2_unique m k :
  0 < k -> 2 ^ (k - 1) <= m < 2 ^ k -> Zdigits2 m = k.
Proof.
  intros Hk [Hlo Hhi].
  assert (0 < m) by (pose proof (Z.pow_pos_nonneg 2 (k - 1)); lia).
  pose proof (Zdigits2_bounds m H) as [Blo Bhi].
  pose proof (Zdigits2_pos m H).
  remember (Zdigits2 m) as d eqn:Ed. clear Ed.
  destruct (Z.lt_trichotomy d k) as [L|[E|G]]; [|exact E|].
  - assert (2 ^ d <= 2 ^ (k - 1)) by (apply Z.pow_le_mono_r; lia). lia.
  - assert (2 ^ k <= 2 ^ (d - 1)) by (apply Z.pow_le_mono_r; lia). lia.
Qed.

Lemma shr_fexp_0 m e l :
  fexp 53 1024 (Zdigits2 m + e) - e <= 0 ->
  shr_fexp 53 1024 m e l = (shr_record_of_loc m l, e).
Proof.
  unfold shr_fexp, shr. intros H.
  destruct (fexp 53 1024 (Zdigits2 m + e) - e); try reflexivity. lia.
Qed.

Lemma shr_fexp_1 m e l :
  fexp 53 1024 (Zdigits2 m + e) - e = 1 ->
  shr_fexp 53 1024 m e l = (shr_1 (shr_record_of_loc m l), e + 1).
Proof. unfold shr_fexp, shr. intros ->. reflexivity. Qed.

Lemma shr_1_spec m r s :
  0 <= m ->
  shr_1 (Build_shr_record m r s) = Build_shr_record (m / 2) (Z.odd m) (r || s).
Proof.
  intros Hm. destruct m as [|[p|p|]|]; try lia; cbn [shr_1];
    rewrite <- Z.div2_div; reflexivity.
Qed.

Lemma shr_record_of_loc_m m l : shr_m (shr_record_of_loc m l) = m.
Proof. destruct l as [|[]]; reflexivity. Qed.

Lemma loc_of_shr_record_of_loc m l :
  loc_of_shr_record (shr_record_of_loc m l) = l.
Proof. destruct l as [|[]]; reflexivity. Qed.

Lemma round_nearest_even_cases m l :
  round_nearest_even m l = m \/
  (round_nearest_even m l = m + 1 /\ (l = loc_Inexact Eq \/ l = loc_Inexact Gt)).
Proof.
  destruct l as [|[]]; cbn [round_nearest_even]; auto.
  destruct (Z.even m); auto.
Qed.

Lemma new_location_up b r :
  new_location b r = loc_Inexact Eq \/ new_location b r = loc_Inexact Gt ->
  b <= 2 * r.
Proof.
  unfold new_location, new_location_even, new_location_odd.
  destruct (Z.even b); destruct (r =? 0);
    [intros [H|H]; discriminate| |intros [H|H]; discriminate|].
  - destruct (Z.compare_spec (2 * r) b); intros [H'|H']; try discriminate; lia.
  - destruct (Z.compare_spec (2 * r + 1) b); intros [H'|H'];
      try discriminate; lia.
Qed.

(** The mantissa [M] the first shift and the rounding leave, for a shift
    of no or one digit: the quotient of [q] by the power of two, or one
    more when the digits dropped are at least a half. *)
Lemma round_shift q e l n1 :
  0 <= q -> n1 = 0 \/ n1 = 1 ->
  fexp 53 1024 (Zdigits2 q + e) - e = n1 ->
  exists mrs,
    shr_fexp 53 1024 q e l = (mrs, e + n1) /\
    let M := round_nearest_even (shr_m mrs) (loc_of_shr_record mrs) in
    M = q / 2 ^ n1 \/
    (M = q / 2 ^ n1 + 1 /\
     (n1 = 0 -> l = loc_Inexact Eq \/ l = loc_Inexact Gt) /\
     (n1 = 1 -> Z.odd q = true)).
Proof.
  intros Hq [-> | ->] Hn.
  - rewrite shr_fexp_0 by lia. eexists; split; [f_equal; lia|].
    cbv zeta. rewrite shr_record_of_loc_m, loc_of_shr_record_of_loc.
    change (2 ^ 0) with 1. rewrite Z.div_1_r.
    destruct (round_nearest_even_cases q l) as [H|[H H']]; [left|right]; auto.
    split; [exact H|]. split; [auto|discriminate].
  - rewrite shr_fexp_1 by exact Hn. eexists; split; [reflexivity|].
    cbv zeta. change (2 ^ 1) with 2.
    assert (E : exists r s, shr_record_of_loc q l = Build_shr_record q r s)
      by (destruct l as [|[]]; cbn; eauto).
    destruct E as (r & s & ->). rewrite shr_1_spec by exact Hq.
    cbn [shr_m].
    destruct (round_nearest_even_cases (q / 2)
                (loc_of_shr_record (Build_shr_record (q / 2) (Z.odd q) (r || s))))
      as [H|[H H']]; [left; exact H|right].
    split; [exact H|]. split; [discriminate|]. intros _.
    destruct (Z.odd q); [reflexivity|].
    cbn in H'. destruct (r || s)%bool; destruct H'; discriminate.
Qed.

Lemma Zdigits2_le_53 (M : Z) : 0 <= M < 2 ^ 53 -> Zdigits2 M <= 53.
Proof.
  intros [H0 H1]. destruct (Z.eq_dec M 0) as [->|Hne]; [cbn; lia|].
  pose proof (Zdigits2_bounds M ltac:(lia)) as [Blo _].
  destruct (Z_le_gt_dec (Zdigits2 M) 53) as [L|G]; [exact L|].
  assert (2 ^ 53 <= 2 ^ (Zdigits2 M - 1)) by (apply Z.pow_le_mono_r; lia).
  lia.
Qed.

(** The second shift renormalises a mantissa the rounding carried to
    [2 ^ 53]; it leaves the value, and so its integer part, as it is. *)
Lemma binary_round_aux_trunc q e l mrs e1 :
  shr_fexp 53 1024 q e l = (mrs, e1) ->
  let M := round_nearest_even (shr_m mrs) (loc_of_shr_record mrs) in
  0 <= M <= 2 ^ 53 -> -1074 <= e1 <= 0 ->
  py_int (binary_round_aux 53 1024 false q e l) = Ok (M / 2 ^ (- e1)).
Proof.
  intros Hs M HM He. unfold binary_round_aux. rewrite Hs. fold M.
  destruct (Z.eq_dec M (2 ^ 53)) as [EM|NM].
  - rewrite EM. rewrite shr_fexp_1.
    2:{ replace (Zdigits2 (2 ^ 53)) with 54 by reflexivity.
        unfold fexp, emin. lia. }
    cbn [shr_record_of_loc]. rewrite shr_1_spec by lia.
    cbn [shr_m]. change (2 ^ 53 / 2) with (Zpos (2 ^ 52)).
    destruct (Z.leb_spec (e1 + 1) (1024 - 53)) as [_|]; [|lia].
    cbn [py_int cond_Zopp].
    destruct (Z.leb_spec 0 (e1 + 1)) as [Hp|Hn].
    + assert (e1 = 0 \/ e1 = -1) as [-> | ->] by lia; reflexivity.
    + replace (- e1) with (Z.succ (- (e1 + 1))) by lia.
      rewrite Z.pow_succ_r by lia.
      change (2 ^ 53) with (2 * Zpos (2 ^ 52)).
      rewrite Z.div_mul_cancel_l; [reflexivity| |lia].
      apply Z.pow_nonzero; lia.
  - assert (HM' : 0 <= M < 2 ^ 53) by lia.
    pose proof (Zdigits2_le_53 M HM') as Hd.
    rewrite shr_fexp_0 by (unfold fexp, emin; lia).
    cbn [shr_record_of_loc shr_m].
    destruct M as [|m|m]; [| |lia].
    + cbn [py_int]. rewrite Z.div_0_l; [reflexivity|]. apply Z.pow_nonzero; lia.
    + destruct (Z.leb_spec e1 (1024 - 53)) as [_|]; [|lia].
      cbn [py_int cond_Zopp].
      destruct (Z.leb_spec 0 e1) as [Hp|Hn]; [|reflexivity].
      assert (e1 = 0) as -> by lia. cbn [Z.opp].
      change (2 ^ 0) with 1. rewrite Z.div_1_r. f_equal. lia.
Qed.

(** The arithmetic of the argument: a quotient rounded at [u] binary
    places stays below the next integer, while the divisor has at most
    [u] digits. *)
Lemma round_keeps_floor (a b u n1 M : Z) :
  0 <= a -> 0 < b -> 0 <= u -> 0 <= n1 ->
  b < 2 ^ (u + 1) ->
  let N := a * 2 ^ (u + n1) in
  let D := b * 2 ^ n1 in
  M = N / D \/ (M = N / D + 1 /\ D <= 2 * (N mod D)) ->
  M / 2 ^ u = a / b.
Proof.
  intros Ha Hb Hu Hn Hbu N D HM.
  assert (HP : 0 < 2 ^ u) by (apply Z.pow_pos_nonneg; lia).
  assert (HT : 0 < 2 ^ n1) by (apply Z.pow_pos_nonneg; lia).
  assert (HD : 0 < D) by (unfold D; nia).
  assert (EN : N = a * 2 ^ u * 2 ^ n1)
    by (unfold N; rewrite Z.pow_add_r by lia; ring).
  rewrite Z.pow_add_r, Z.pow_1_r in Hbu by lia.
  pose proof (Z.div_mod a b ltac:(lia)) as Eab.
  pose proof (Z.mod_pos_bound a b Hb) as Rab.
  pose proof (Z.div_mod N D ltac:(lia)) as END.
  pose proof (Z.mod_pos_bound N D HD) as RND.
  assert (Hk : 0 <= a / b) by (apply Z.div_pos; lia).
  remember (a / b) as k eqn:Ek. remember (a mod b) as r eqn:Er.
  remember (N / D) as Q eqn:EQ. remember (N mod D) as R eqn:ER.
  remember (2 ^ u) as P eqn:EP. remember (2 ^ n1) as T eqn:ET.
  assert (Hlo : k * P <= Q).
  { assert (k * P * D <= N) by (subst N D a; nia).
    assert (D * (k * P) < D * (Q + 1)) by nia.
    nia. }
  assert (Hhi : M < (k + 1) * P).
  { assert (HN : N + P * T <= (k + 1) * P * D) by (subst N D a; nia).
    destruct HM as [->|[-> HR]].
    - assert (D * Q < D * ((k + 1) * P)) by nia. nia.
    - destruct (Z_lt_ge_dec (Q + 1) ((k + 1) * P)) as [L|G]; [exact L|].
      exfalso.
      assert (D * ((k + 1) * P - 1) <= D * Q) by nia.
      assert (D <= 2 * P * T)
        by (unfold D in *; nia).
      unfold D in *. nia. }
  assert (HMlo : k * P <= M) by (destruct HM as [->|[-> _]]; lia).
  symmetry. apply Z.div_unique with (r := M - k * P); [lia|ring].
Qed.

Lemma odd_half_remainder (N b : Z) :
  0 <= N -> 0 < b -> Z.odd (N / b) = true -> b * 2 <= 2 * (N mod (b * 2)).
Proof.
  intros HN Hb Hodd.
  pose proof (Z.div_mod N b ltac:(lia)) as E1.
  pose proof (Z.mod_pos_bound N b Hb) as R1.
  pose proof (Z.div_mod N (b * 2) ltac:(lia)) as E2.
  pose proof (Z.mod_pos_bound N (b * 2) ltac:(lia)) as R2.
  rewrite <- Z.div_div in E2 by lia.
  pose proof (Z.div_mod (N / b) 2 ltac:(lia)) as E3.
  rewrite Zmod_odd, Hodd in E3.
  remember (N / b) as q. remember (q / 2) as q'.
  remember (N mod b) as r. remember (N mod (b * 2)) as R.
  nia.
Qed.

(** The quotient of two integers, rounded to binary64 and truncated,
    is their integer quotient while the dividend is below [2 ^ 53]. *)
Lemma py_int_SFdiv_small (a b : Z) :
  0 <= a < 2 ^ 53 -> 0 < b ->
  py_int (SFdiv 53 1024 (fl a) (fl b)) = Ok (a / b).
Proof.
  intros [Ha0 Ha] Hb.
  destruct b as [|pb|pb]; try lia.
  destruct a as [|pa|pa]; try lia; [reflexivity|].
  cbn [fl SFdiv xorb]. unfold SFdiv_core_binary.
  remember (Zpos pa) as a eqn:Ea. remember (Zpos pb) as b eqn:Eb.
  assert (Ha1 : 0 < a) by lia.
  pose proof (Zdigits2_bounds a Ha1) as [A1 A2].
  pose proof (Zdigits2_bounds b Hb) as [B1 B2].
  pose proof (Zdigits2_pos a Ha1) as Pd1.
  pose proof (Zdigits2_pos b Hb) as Pd2.
  pose proof (Zdigits2_le_53 a ltac:(lia)) as Ld1.
  remember (Zdigits2 a) as d1 eqn:Ed1. remember (Zdigits2 b) as d2 eqn:Ed2.
  remember (Z.min (fexp 53 1024 (d1 + 0 - (d2 + 0))) (0 - 0)) as e' eqn:Ee.
  assert (Ee' : e' = Z.max (d1 - d2 - 53) (-1074))
    by (subst e'; unfold fexp, emin; lia).
  clear Ee.
  assert (Em : match 0 - 0 - e' with
               | Z0 => a
               | Zpos _ => Z.shiftl a (0 - 0 - e')
               | Zneg _ => 0
               end = a * 2 ^ (- e')).
  { destruct (0 - 0 - e') eqn:Es; try lia.
    rewrite Z.shiftl_mul_pow2 by lia. do 2 f_equal. lia. }
  rewrite Em. clear Em.
  remember (a * 2 ^ (- e')) as N eqn:EN.
  assert (HN : 0 <= N)
    by (subst N; apply Z.mul_nonneg_nonneg; [lia|apply Z.pow_nonneg; lia]).
  destruct (Z.div_eucl N b) as [q r] eqn:Ediv.
  assert (Eq : q = N / b) by (unfold Z.div; rewrite Ediv; reflexivity).
  assert (Er : r = N mod b) by (unfold Z.modulo; rewrite Ediv; reflexivity).
  assert (Hq : 0 <= q) by (subst q; apply Z.div_pos; lia).
  destruct (Z_le_gt_dec (-1074) (d1 - d2 - 53)) as [Hnorm|Hsub].
  - (* a normal quotient: 53 or 54 digits before the rounding *)
    assert (Ee : e' = d1 - d2 - 53) by lia.
    assert (Es : - e' = 52 + d2 - (d1 - 1)) by lia.
    assert (Q1 : 2 ^ 52 <= q).
    { subst q. apply Z.div_le_lower_bound; [lia|].
      subst N. rewrite Es.
      assert (2 ^ 52 * 2 ^ d2 <= a * 2 ^ (52 + d2 - (d1 - 1))).
      { replace (2 ^ 52 * 2 ^ d2) with (2 ^ (d1 - 1) * 2 ^ (52 + d2 - (d1 - 1))).
        - apply Z.mul_le_mono_nonneg_r; [apply Z.pow_nonneg; lia|lia].
        - rewrite <- !Z.pow_add_r by lia. f_equal. lia. }
      nia. }
    assert (Q2 : q < 2 ^ 54).
    { subst q. apply Z.div_lt_upper_bound; [lia|].
      subst N. rewrite Es.
      assert (a * 2 ^ (52 + d2 - (d1 - 1)) < 2 ^ 54 * 2 ^ (d2 - 1)).
      { replace (2 ^ 54 * 2 ^ (d2 - 1)) with (2 ^ d1 * 2 ^ (52 + d2 - (d1 - 1))).
        - apply Z.mul_lt_mono_pos_r; [apply Z.pow_pos_nonneg; lia|lia].
        - rewrite <- !Z.pow_add_r by lia. f_equal. lia. }
      nia. }
    assert (Hn : exists n1, (n1 = 0 \/ n1 = 1) /\
                   fexp 53 1024 (Zdigits2 q + e') - e' = n1 /\
                   q < 2 ^ (53 + n1)).
    { destruct (Z_lt_ge_dec q (2 ^ 53)) as [L|G].
      - exists 0. rewrite (Zdigits2_unique q 53) by lia.
        unfold fexp, emin. repeat split; [auto|lia|exact L].
      - exists 1. rewrite (Zdigits2_unique q 54) by lia.
        unfold fexp, emin. repeat split; [auto|lia|exact Q2]. }
    destruct Hn as (n1 & Hn1 & Hfexp & Hqn).
    destruct (round_shift q e' (new_location b r) n1 Hq Hn1 Hfexp)
      as (mrs & Hs & HM).
    cbv zeta in HM.
    remember (round_nearest_even (shr_m mrs) (loc_of_shr_record mrs)) as M eqn:EM.
    assert (Hq2 : 0 <= q / 2 ^ n1 < 2 ^ 53).
    { destruct Hn1 as [-> | ->].
      - change (2 ^ 0) with 1. rewrite Z.div_1_r. change (53 + 0) with 53 in Hqn. lia.
      - change (2 ^ 1) with 2. change (2 ^ (53 + 1)) with (2 ^ 53 * 2) in Hqn.
        split; [apply Z.div_pos; lia|apply Z.div_lt_upper_bound; lia]. }
    rewrite (binary_round_aux_trunc q e' _ mrs (e' + n1) Hs);
      [|rewrite <- EM; destruct HM as [->|[-> _]]; lia|lia].
    rewrite <- EM. f_equal.
    apply (round_keeps_floor a b (- (e' + n1)) n1 M); try lia.
    + apply Z.lt_le_trans with (1 := B2). apply Z.pow_le_mono_r; lia.
    + replace (- (e' + n1) + n1) with (- e') by lia. rewrite <- EN.
      assert (EQ : N / (b * 2 ^ n1) = q / 2 ^ n1)
        by (rewrite Eq, Z.div_div; [reflexivity|lia|apply Z.pow_pos_nonneg; lia]).
      rewrite EQ.
      destruct HM as [HM|(HM & U0 & U1)]; [left; exact HM|right].
      split; [exact HM|].
      destruct Hn1 as [-> | ->].
      * change (2 ^ 0) with 1. rewrite Z.mul_1_r, <- Er.
        apply new_location_up. apply U0. reflexivity.
      * change (2 ^ 1) with 2. apply odd_half_remainder; [exact HN|exact Hb|].
        rewrite <- Eq. apply U1. reflexivity.
  - (* a quotient below the normal range: it is below 1 *)
    assert (Ee : e' = -1074) by lia.
    assert (Hab : a < b).
    { apply Z.lt_le_trans with (1 := A2). apply Z.le_trans with (2 := B1).
      apply Z.pow_le_mono_r; lia. }
    assert (Q2 : q < 2 ^ 53).
    { subst q. apply Z.div_lt_upper_bound; [lia|].
      subst N. rewrite Ee. change (- -1074) with 1074.
      assert (2 ^ d1 * 2 ^ 1074 <= 2 ^ 53 * 2 ^ (d2 - 1)).
      { rewrite <- !Z.pow_add_r by lia. apply Z.pow_le_mono_r; lia. }
      assert (0 < 2 ^ 1074) by (apply Z.pow_pos_nonneg; lia).
      nia. }
    pose proof (Zdigits2_le_53 q ltac:(lia)) as Ldq.
    assert (Hfexp : fexp 53 1024 (Zdigits2 q + e') - e' = 0)
      by (unfold fexp, emin; lia).
    destruct (round_shift q e' (new_location b r) 0 Hq ltac:(auto) Hfexp)
      as (mrs & Hs & HM).
    cbv zeta in HM. change (2 ^ 0) with 1 in HM. rewrite Z.div_1_r in HM.
    remember (round_nearest_even (shr_m mrs) (loc_of_shr_record mrs)) as M eqn:EM.
    rewrite (binary_round_aux_trunc q e' _ mrs (e' + 0) Hs);
      [|rewrite <- EM; destruct HM as [->|[-> _]]; lia|lia].
    rewrite <- EM. f_equal.
    rewrite (Z.div_small a b) by lia.
    apply Z.div_small. split; [destruct HM as [->|[-> _]]; lia|].
    rewrite Ee. change (- (-1074 + 0)) with 1074.
    assert (2 ^ 53 < 2 ^ 1074) by (apply Z.pow_lt_mono_r; lia).
    destruct HM as [->|[-> _]]; lia.
Qed.

(** From [2 ^ 53] on the rounding can reach the next integer: a quotient
    just below 1 becomes 1, and one just below [2 ^ 25] becomes
    [2 ^ 25]. *)
Lemma py_int_SFdiv_rounds_up :
  py_int (SFdiv 53 1024 (fl (2 ^ 60 - 1)) (fl (2 ^ 60))) = Ok 1 /\
  (2 ^ 60 - 1) / 2 ^ 60 = 0 /\
  py_int (SFdiv 53 1024 (fl (2 ^ 55 - 1)) (fl (2 ^ 30))) = Ok (2 ^ 25) /\
  (2 ^ 55 - 1) / 2 ^ 30 = 2 ^ 25 - 1.
Proof. repeat split; vm_compute; reflexivity. Qed.

End FloatQuotient.

(** [int(n / bs)] is the integer quotient while [n] is below [2 ^ 53]. *)
Lemma int_true_div_small (n bs : nat) :
  0 < bs -> (Z.of_nat n < 2 ^ 53)%Z ->
  int_true_div n bs ≫= (fun q => Z.to_nat <$> py_int q) = Ok (n / bs).
Proof.
  intros Hbs Hn. unfold int_true_div.
  destruct (Nat.eqb_spec bs 0) as [->|_]; [lia|].
  pose proof (py_int_SFdiv_small (Z.of_nat n) (Z.of_nat bs)
                ltac:(lia) ltac:(lia)) as H.
  remember (SFdiv 53 1024 (fl (Z.of_nat n)) (fl (Z.of_nat bs))) as x eqn:Ex.
  assert (E : float_or_overflow x = Ok x)
    by (destruct x; try reflexivity; discriminate H).
  rewrite E. change (Z.to_nat <$> py_int x = Ok (n / bs)). rewrite H.
  change (Ok (Z.to_nat (Z.of_nat n / Z.of_nat bs)) = Ok (n / bs)).
  rewrite <- Nat2Z.inj_div, Nat2Z.id. reflexivity.
Qed.

(** ** What [DataGenerator.__init__] establishes *)

Lemma DataGenerator_init_Ok fs dir out bs names tn mode conv g :
  DataGenerator.__init__ fs dir out bs names tn mode conv = Ok g ->
  tn = ["SPDT"; "SPDQ"] /\
  DataGenerator.batch_size g = bs /\ 0 < bs /\
  DataGenerator.shuffle_mode g = mode /\
  DataGenerator.convolution g = conv /\
  ((Z.of_nat (DataGenerator.n_samples g) < 2 ^ 53)%Z ->
   DataGenerator.n_batches g = DataGenerator.n_samples g / bs) /\
  DataGenerator.idxs g =
    (if String.eqb mode "batches"
     then arange_step (DataGenerator.n_samples g) bs
     else arange (DataGenerator.n_samples g)).
Proof.
  unfold DataGenerator.__init__. intros H.
  destruct (decide (tn = ["SPDT"; "SPDQ"])) as [->|]; [|discriminate].
  inv_bind H. destruct a as [n f]. inv_bind H. inv_bind H. inv_bind H.
  inv_bind H. injection H as <-. cbn [DataGenerator.batch_size
    DataGenerator.shuffle_mode DataGenerator.convolution
    DataGenerator.n_batches DataGenerator.n_samples DataGenerator.idxs].
  assert (Hbs : 0 < bs).
  { destruct bs; [discriminate Ha1|lia]. }
  unfold np_arange in Ha3. inv_bind Ha3. injection Ha3 as <-.
  repeat split; try reflexivity; try exact Hbs.
  intros Hn. pose proof (int_true_div_small n bs Hbs Hn) as E.
  rewrite Ha1 in E. change (Z.to_nat <$> py_int a0 = Ok (n / bs)) in E.
  rewrite Ha2 in E. injection E as ->. reflexivity.
Qed.

(** In the other shuffle modes the index set has an entry for every
    sample, so an object that was built has fewer than [2 ^ 53] samples,
    and its batch count is the integer quotient. *)
Lemma DataGenerator_init_other_modes fs dir out bs names tn mode conv g :
  DataGenerator.__init__ fs dir out bs names tn mode conv = Ok g ->
  mode <> "batches" ->
  (Z.of_nat (DataGenerator.n_samples g) < 2 ^ 53)%Z /\
  DataGenerator.n_batches g = DataGenerator.n_samples g / bs.
Proof.
  intros Hinit Hmode.
  assert (Hn : (Z.of_nat (DataGenerator.n_samples g) < 2 ^ 53)%Z).
  { revert Hinit. unfold DataGenerator.__init__. intros H.
    destruct (decide (tn = ["SPDT"; "SPDQ"])) as [->|]; [|discriminate].
    inv_bind H. destruct a as [n f]. inv_bind H. inv_bind H. inv_bind H.
    inv_bind H. injection H as <-. cbn [DataGenerator.n_samples].
    apply String.eqb_neq in Hmode. rewrite Hmode in Ha3.
    unfold np_arange, alloc_int64, arange in Ha3. rewrite length_seq in Ha3.
    destruct (Z.leb_spec (2 ^ 60) (Z.of_nat n)); [discriminate|].
    destruct (Z.leb_spec (2 ^ 53) (Z.of_nat n)); [discriminate|]. lia. }
  split; [exact Hn|].
  apply DataGenerator_init_Ok in Hinit as (_ & _ & _ & _ & _ & Hnb & _).
  exact (Hnb Hn).
Qed.

(** ** Slices and index lists *)

Lemma lookup_map {A B} (f : A -> B) (l : list A) (i : nat) :
  map f l !! i = f <$> l !! i.
Proof. apply (list_lookup_fmap f l i). Qed.

Lemma slice_seq (a len n : nat) :
  a + len <= n -> slice a (a + len) (seq 0 n) = seq a len.
Proof.
  intros H. unfold slice.
  replace (a + len - a) with len by lia.
  rewrite drop_seq, take_seq. simpl. f_equal. lia.
Qed.

Lemma take_idx_seq (idx : list nat) (n : nat) :
  Forall (fun k => k < n) idx -> take_idx idx (seq 0 n) = Ok idx.
Proof.
  intros H. unfold take_idx.
  rewrite (mapM_all_Ok _ (fun k => k)).
  - rewrite map_id. reflexivity.
  - eapply Forall_impl; [exact H|]. intros k Hk; simpl.
    rewrite lookup_seq_lt by exact Hk. reflexivity.
Qed.

Lemma concat_seq_blocks (bs nb : nat) :
  concat (map (fun i => seq (i * bs) bs) (seq 0 nb)) = seq 0 (nb * bs).
Proof.
  induction nb as [|nb IH]; [reflexivity|].
  rewrite seq_S, map_app, concat_app, IH. simpl.
  rewrite app_nil_r. replace (bs + nb * bs) with (nb * bs + bs) by lia.
  rewrite seq_app. reflexivity.
Qed.

(** In the other shuffle modes, the indices of batch [i] are the [i]-th
    block of [batch_size] consecutive indices. *)
Lemma batch_idx_block (g : DataGenerator.t) (i : nat) :
  DataGenerator.idxs g = arange (DataGenerator.n_samples g) ->
  (i + 1) * DataGenerator.batch_size g <= DataGenerator.n_samples g ->
  DataGenerator.batch_idx g i =
    Ok (seq (i * DataGenerator.batch_size g) (DataGenerator.batch_size g)).
Proof.
  intros Hidx Hle. unfold DataGenerator.batch_idx. rewrite Hidx. unfold arange.
  replace ((i + 1) * DataGenerator.batch_size g)
    with (i * DataGenerator.batch_size g + DataGenerator.batch_size g) by lia.
  rewrite slice_seq by lia.
  apply take_idx_seq. apply Forall_forall. intros k Hk.
  apply elem_of_seq in Hk. lia.
Qed.

(** ** The sequence of yielded batches *)

Section Yields.

Variable g : DataGenerator.t.

Lemma next_Yield (st : DataGenerator.gen_state) b st' :
  DataGenerator.next g st = DataGenerator.Yield b st' <->
  0 < DataGenerator.n_batches g /\
  DataGenerator.batch g (DataGenerator.gen_idxs st) (DataGenerator.i st) = Ok b /\
  st' = {| DataGenerator.gen_idxs := DataGenerator.gen_idxs st;
           DataGenerator.i :=
             if S (DataGenerator.i st) <? DataGenerator.n_batches g
             then S (DataGenerator.i st) else 0 |}.
Proof.
  unfold DataGenerator.next.
  destruct (DataGenerator.n_batches g =? 0) eqn:E.
  - apply Nat.eqb_eq in E. split; [discriminate|]. intros (? & _). lia.
  - apply Nat.eqb_neq in E.
    destruct (DataGenerator.batch g _ _) as [b0|e]; split.
    + intros H. injection H as <- <-. repeat split. lia.
    + intros (_ & H & ->). injection H as <-. reflexivity.
    + discriminate.
    + intros (_ & H & _). discriminate.
Qed.

(** The batch yielded at step [k] of a first pass is the batch at position
    [i + k]. *)
Lemma nth_yield_first_pass (gi : list nat) (k i : nat) b :
  i + k < DataGenerator.n_batches g ->
  DataGenerator.nth_yield g
    {| DataGenerator.gen_idxs := gi; DataGenerator.i := i |} k = Some b ->
  DataGenerator.batch g gi (i + k) = Ok b.
Proof.
  revert i. induction k as [|k IH]; intros i Hlt H; simpl in H.
  - destruct (DataGenerator.next g _) as [b' st'| |] eqn:E; [|discriminate..].
    injection H as ->. apply next_Yield in E as (_ & E & _). simpl in E.
    rewrite Nat.add_0_r. exact E.
  - destruct (DataGenerator.next g _) as [b' st'| |] eqn:E; [|discriminate..].
    apply next_Yield in E as (_ & _ & ->). simpl in H.
    destruct (S i <? DataGenerator.n_batches g) eqn:E'.
    + apply IH in H; [|lia]. replace (i + S k) with (S i + k) by lia. exact H.
    + apply Nat.ltb_ge in E'. lia.
Qed.

(** When every position has a batch, step [k] from position [i] yields the
    batch at position [(i + k) mod n_batches]. *)
Lemma nth_yield_cycle (gi : list nat) :
  (forall j, j < DataGenerator.n_batches g ->
             exists b, DataGenerator.batch g gi j = Ok b) ->
  forall k i, i < DataGenerator.n_batches g ->
    exists b,
      DataGenerator.batch g gi ((i + k) mod DataGenerator.n_batches g) = Ok b /\
      DataGenerator.nth_yield g
        {| DataGenerator.gen_idxs := gi; DataGenerator.i := i |} k = Some b.
Proof.
  intros Hall. induction k as [|k IH]; intros i Hi.
  - destruct (Hall i Hi) as [b Hb]. exists b.
    rewrite Nat.add_0_r, Nat.mod_small by exact Hi. split; [exact Hb|].
    simpl. unfold DataGenerator.next; simpl.
    destruct (DataGenerator.n_batches g =? 0) eqn:E;
      [apply Nat.eqb_eq in E; lia|].
    rewrite Hb. reflexivity.
  - destruct (Hall i Hi) as [b0 Hb0].
    simpl. unfold DataGenerator.next; simpl.
    destruct (DataGenerator.n_batches g =? 0) eqn:E;
      [apply Nat.eqb_eq in E; lia|].
    rewrite Hb0.
    destruct (S i <? DataGenerator.n_batches g) eqn:E'.
    + apply Nat.ltb_lt in E'. destruct (IH (S i) E') as (b & Hb & Hy).
      exists b. replace (i + S k) with (S i + k) by lia. auto.
    + apply Nat.ltb_ge in E'.
      assert (Hnb : DataGenerator.n_batches g = S i) by lia.
      destruct (IH 0) as (b & Hb & Hy); [lia|].
      exists b. split; [|exact Hy].
      replace (i + S k) with (k + 1 * DataGenerator.n_batches g) by lia.
      rewrite Nat.Div0.mod_add. exact Hb.
Qed.



(** A generator that yields at step [k] has yielded at every step
    before. *)
Lemma nth_yield_prefix (st : DataGenerator.gen_state) (k j : nat) :
  j <= k ->
  is_Some (DataGenerator.nth_yield g st k) ->
  is_Some (DataGenerator.nth_yield g st j).
Proof.
  revert st j. induction k as [|k IH]; intros st j Hj H.
  - replace j with 0 by lia. exact H.
  - simpl in H.
    destruct (DataGenerator.next g st) as [b st'| |] eqn:E;
      [|destruct H; discriminate..].
    destruct j as [|j]; simpl; rewrite E; [eauto|].
    apply IH; [lia|exact H].
Qed.

Lemma nth_yield_n_batches (st : DataGenerator.gen_state) (k : nat) :
  is_Some (DataGenerator.nth_yield g st k) -> 0 < DataGenerator.n_batches g.
Proof.
  intros H. apply (nth_yield_prefix st k 0) in H; [|lia].
  simpl in H.
  destruct (DataGenerator.next g st) as [b st'| |] eqn:E;
    [|destruct H; discriminate..].
  apply next_Yield in E as (Hpos & _). exact Hpos.
Qed.

(** Every batch a generator yields is the batch at some position of its
    index copy. *)
Lemma nth_yield_is_batch (st : DataGenerator.gen_state) (k : nat) b :
  DataGenerator.nth_yield g st k = Some b ->
  exists j, DataGenerator.batch g (DataGenerator.gen_idxs st) j = Ok b.
Proof.
  revert st. induction k as [|k IH]; intros st H; simpl in H;
    destruct (DataGenerator.next g st) as [b' st'| |] eqn:E;
    try discriminate; apply next_Yield in E as (_ & E & ->).
  - injection H as <-. eauto.
  - apply IH in H. exact H.
Qed.

(** No step changes the index copy: the permutation is the one drawn
    before the loop. *)
Lemma next_keeps_gen_idxs (st : DataGenerator.gen_state) b st' :
  DataGenerator.next g st = DataGenerator.Yield b st' ->
  DataGenerator.gen_idxs st' = DataGenerator.gen_idxs st.
Proof. intros H. apply next_Yield in H as (_ & _ & ->). reflexivity. Qed.

End Yields.

Lemma DataGenerator_features_kind fs out_fn mean_fn std_fn names conv n f :
  DataGenerator.__get_features fs out_fn mean_fn std_fn names conv = Ok (n, f) ->
  match f with Flat _ => conv = false | Conv _ _ => conv = true end.
Proof.
  unfold DataGenerator.__get_features. intros H.
  do 6 inv_bind H. destruct conv.
  - do 2 inv_bind H. injection H as _ <-. reflexivity.
  - inv_bind H. injection H as _ <-. reflexivity.
Qed.

Lemma DataGenerator_init_kind fs dir out bs names tn mode conv g :
  DataGenerator.__init__ fs dir out bs names tn mode conv = Ok g ->
  match DataGenerator.features g with
  | Flat _ => DataGenerator.convolution g = false
  | Conv _ _ => DataGenerator.convolution g = true
  end.
Proof.
  unfold DataGenerator.__init__. intros H.
  destruct (decide (tn = ["SPDT"; "SPDQ"])) as [->|]; [|discriminate].
  inv_bind H. destruct a as [n f]. do 4 inv_bind H.
  injection H as <-. simpl.
  apply DataGenerator_features_kind in Ha. exact Ha.
Qed.

(** In the other shuffle modes the batch at position [i] is the batch of
    the samples [batch_idx]. *)
Lemma batch_other_modes_samples (g : DataGenerator.t) (gi : list nat) (i : nat) :
  DataGenerator.shuffle_mode g <> "batches" ->
  match DataGenerator.features g with
  | Flat _ => DataGenerator.convolution g = false
  | Conv _ _ => DataGenerator.convolution g = true
  end ->
  DataGenerator.batch g gi i =
    (idx ← DataGenerator.batch_idx g i; samples_at g idx).
Proof.
  intros H Hk. unfold DataGenerator.batch, samples_at.
  apply String.eqb_neq in H. rewrite H.
  destruct (DataGenerator.batch_idx g i) as [idx|e]; simpl; [|reflexivity].
  destruct (DataGenerator.features g) as [f|f2 f1]; rewrite Hk; simpl;
    reflexivity.
Qed.

(** In the other shuffle modes of a constructed generator every batch
    position below [n_batches] has its block of indices. *)
Lemma other_modes_batch_idx fs dir out bs names tn mode conv g i :
  DataGenerator.__init__ fs dir out bs names tn mode conv = Ok g ->
  mode <> "batches" ->
  i < DataGenerator.n_batches g ->
  DataGenerator.batch_idx g i = Ok (seq (i * bs) bs).
Proof.
  intros Hinit Hmode Hi.
  pose proof (DataGenerator_init_other_modes _ _ _ _ _ _ _ _ _ Hinit Hmode)
    as [_ Hnb].
  apply DataGenerator_init_Ok in Hinit
    as (_ & Hbs & Hpos & Hm & _ & _ & Hidx).
  apply String.eqb_neq in Hmode. rewrite Hmode in Hidx.
  rewrite <- Hbs. apply batch_idx_block; [exact Hidx|].
  rewrite Hbs. rewrite Hnb in Hi.
  pose proof (Nat.Div0.mul_div_le (DataGenerator.n_samples g) bs).
  nia.
Qed.


(** Indexing by indices in range succeeds. *)
Lemma take_idx_Ok {A} (idx : list nat) (l : list A) :
  Forall (fun j => j < length l) idx -> exists r, take_idx idx l = Ok r.
Proof.
  unfold take_idx. induction 1 as [|j idx Hj _ [r IH]]; simpl; [eauto|].
  destruct (lookup_lt_is_Some_2 l j Hj) as [x ->]. simpl.
  rewrite IH. simpl. eauto.
Qed.

(** The batch of the samples [idx] exists when the arrays hold them. *)
Lemma samples_at_Ok (g : DataGenerator.t) (idx : list nat) :
  idx <> [] ->
  Forall (fun j => j < features_len (DataGenerator.features g)) idx ->
  Forall (fun j => j < batch_len (DataGenerator.targets g)) idx ->
  exists b, samples_at g idx = Ok b.
Proof.
  intros Hne Hf Ht. unfold samples_at, features_take.
  assert (Hx : exists x,
             match DataGenerator.features g with
             | Flat m => m ← mat_take idx m; mret (Flat m)
             | Conv f_2d f_1d =>
                 f_2d ← arr3_take idx f_2d;
                 f_1d ← mat_take idx f_1d;
                 mret (Conv f_2d f_1d)
             end = Ok x).
  { destruct (DataGenerator.features g) as [m|f2 f1]; simpl in Hf.
    - unfold mat_take. destruct (take_idx_Ok idx (m_rows m) Hf) as [r ->].
      simpl. eauto.
    - unfold arr3_take, mat_take.
      destruct (take_idx_Ok idx (a3_data f2)) as [r2 ->];
        [eapply Forall_impl; [exact Hf|]; simpl; intros; lia|].
      destruct (take_idx_Ok idx (m_rows f1)) as [r1 ->];
        [eapply Forall_impl; [exact Hf|]; simpl; intros; lia|].
      simpl. eauto. }
  destruct Hx as [x ->]. simpl.
  assert (Hy : exists y, nd_take idx (DataGenerator.targets g) = Ok y).
  { destruct (DataGenerator.targets g) as [dt x0|dt xs|m]; simpl in Ht |- *.
    - destruct idx as [|j idx]; [congruence|].
      apply Forall_cons in Ht as [Hj _]. lia.
    - destruct (take_idx_Ok idx xs Ht) as [r ->]. simpl. eauto.
    - unfold mat_take. destruct (take_idx_Ok idx (m_rows m) Ht) as [r ->].
      simpl. eauto. }
  destruct Hy as [y ->]. simpl. eauto.
Qed.

(** C3, as amended: in the other shuffle modes, when the feature and
    target arrays hold all [n_samples] samples, every pass of [n_batches]
    batches yields, whatever [shuffle] and the draw, the samples of
    [n_batches] index lists of [batch_size] indices each, which together
    are [n_batches * batch_size] pairwise distinct indices of the range
    [0 .. n_samples]; they are the full range, each index once, when
    [batch_size] divides [n_samples]. *)
Theorem other_modes_pass_indices fs dir out bs names tn mode conv g
    (shuffle : bool) (rng : nat -> nat) :
  DataGenerator.__init__ fs dir out bs names tn mode conv = Ok g ->
  mode <> "batches" ->
  DataGenerator.n_samples g <= features_len (DataGenerator.features g) ->
  DataGenerator.n_samples g <= batch_len (DataGenerator.targets g) ->
  exists pass : list (list nat),
    length pass = DataGenerator.n_batches g /\
    (forall p i, i < DataGenerator.n_batches g ->
       exists idx b,
         pass !! i = Some idx /\
         samples_at g idx = Ok b /\
         DataGenerator.nth_yield g (DataGenerator.generate g shuffle rng)
           (p * DataGenerator.n_batches g + i) = Some b) /\
    Forall (fun idx => length idx = bs) pass /\
    length (concat pass) = DataGenerator.n_batches g * bs /\
    NoDup (concat pass) /\
    Forall (fun j => j < DataGenerator.n_samples g) (concat pass) /\
    (DataGenerator.n_samples g mod bs = 0 ->
     concat pass ≡ₚ arange (DataGenerator.n_samples g)).
Proof.
  intros Hinit Hmode Hfeat Htarg.
  pose proof (DataGenerator_init_kind _ _ _ _ _ _ _ _ _ Hinit) as Hkind.
  pose proof (DataGenerator_init_other_modes _ _ _ _ _ _ _ _ _ Hinit Hmode)
    as [_ Hnb].
  pose proof (DataGenerator_init_Ok _ _ _ _ _ _ _ _ _ Hinit)
    as (_ & _ & Hpos & Hm & _).
  assert (Hle : DataGenerator.n_batches g * bs <= DataGenerator.n_samples g).
  { rewrite Hnb. pose proof (Nat.Div0.mul_div_le (DataGenerator.n_samples g) bs).
    lia. }
  assert (Hbatch : forall gi i, i < DataGenerator.n_batches g ->
            exists b, samples_at g (seq (i * bs) bs) = Ok b /\
                      DataGenerator.batch g gi i = Ok b).
  { intros gi i Hi.
    destruct (samples_at_Ok g (seq (i * bs) bs)) as [b Hb].
    - destruct bs; [lia|]. discriminate.
    - apply Forall_forall. intros j Hj. apply elem_of_seq in Hj. nia.
    - apply Forall_forall. intros j Hj. apply elem_of_seq in Hj. nia.
    - exists b. split; [exact Hb|].
      rewrite batch_other_modes_samples; [|congruence|exact Hkind].
      rewrite (other_modes_batch_idx _ _ _ _ _ _ _ _ _ _ Hinit Hmode Hi).
      exact Hb. }
  exists (map (fun i => seq (i * bs) bs) (seq 0 (DataGenerator.n_batches g))).
  split; [|split; [|split; [|split; [|split; [|split]]]]].
  - rewrite length_map, length_seq. reflexivity.
  - intros p i Hi.
    destruct (Hbatch (DataGenerator.gen_idxs (DataGenerator.generate g shuffle rng))
                i Hi) as (b & Hb & _).
    exists (seq (i * bs) bs), b. split; [|split; [exact Hb|]].
    + rewrite lookup_map, lookup_seq_lt by exact Hi. reflexivity.
    + destruct (nth_yield_cycle g
                  (DataGenerator.gen_idxs (DataGenerator.generate g shuffle rng))
                  (fun j Hj => let '(ex_intro _ b' (conj _ H)) := Hbatch _ j Hj in
                               ex_intro _ b' H)
                  (p * DataGenerator.n_batches g + i) 0 ltac:(lia))
        as (b' & Hb' & Hy).
      replace (0 + (p * DataGenerator.n_batches g + i))
        with (i + p * DataGenerator.n_batches g) in Hb' by lia.
      rewrite Nat.Div0.mod_add, Nat.mod_small in Hb' by exact Hi.
      destruct (Hbatch (DataGenerator.gen_idxs
                          (DataGenerator.generate g shuffle rng)) i Hi)
        as (b'' & Hb1 & Hb2).
      assert (b' = b) by congruence. subst b'. exact Hy.
  - apply Forall_forall. intros idx Hidx.
    apply list_elem_of_fmap in Hidx as (i & -> & _). apply length_seq.
  - rewrite concat_seq_blocks, length_seq. reflexivity.
  - rewrite concat_seq_blocks. apply NoDup_ListNoDup, List.seq_NoDup.
  - rewrite concat_seq_blocks. apply Forall_forall. intros j Hj.
    apply elem_of_seq in Hj. lia.
  - intros Hdiv. rewrite concat_seq_blocks. unfold arange.
    replace (DataGenerator.n_batches g * bs) with (DataGenerator.n_samples g);
      [reflexivity|].
    rewrite Hnb.
    pose proof (Nat.div_mod_eq (DataGenerator.n_samples g) bs). lia.
Qed.

(** C8: within one invocation of [generate], the sequence of yielded
    batches has period [n_batches]: for every [k], the batch yielded at
    step [k + n_batches] is the batch yielded at step [k]. Once the first
    pass has yielded its [n_batches] batches, every step yields. The index
    copy is drawn before the first step and every step leaves it as it
    is. *)
Theorem generate_periodic (g : DataGenerator.t) (shuffle : bool)
    (rng : nat -> nat) :
  let st := DataGenerator.generate g shuffle rng in
  (forall k b,
     DataGenerator.nth_yield g st (k + DataGenerator.n_batches g) = Some b ->
     DataGenerator.nth_yield g st k = Some b) /\
  (0 < DataGenerator.n_batches g ->
   (forall j, j < DataGenerator.n_batches g ->
      is_Some (DataGenerator.nth_yield g st j)) ->
   forall k,
     is_Some (DataGenerator.nth_yield g st k) /\
     DataGenerator.nth_yield g st (k + DataGenerator.n_batches g) =
     DataGenerator.nth_yield g st k) /\
  (forall st0 b st',
     DataGenerator.next g st0 = DataGenerator.Yield b st' ->
     DataGenerator.gen_idxs st' = DataGenerator.gen_idxs st0).
Proof.
  intros st.
  assert (Hper : 0 < DataGenerator.n_batches g ->
            (forall j, j < DataGenerator.n_batches g ->
               is_Some (DataGenerator.nth_yield g st j)) ->
            forall k,
              is_Some (DataGenerator.nth_yield g st k) /\
              DataGenerator.nth_yield g st (k + DataGenerator.n_batches g) =
              DataGenerator.nth_yield g st k).
  { intros Hpos Hfirst k.
    set (gi := DataGenerator.gen_idxs st).
    assert (Hst : st = {| DataGenerator.gen_idxs := gi;
                          DataGenerator.i := 0 |}) by reflexivity.
    assert (Hall : forall j, j < DataGenerator.n_batches g ->
                     exists b, DataGenerator.batch g gi j = Ok b).
    { intros j Hj. destruct (Hfirst j Hj) as [b Hb]. exists b.
      rewrite Hst in Hb. apply nth_yield_first_pass in Hb; [exact Hb|].
      simpl. lia. }
    rewrite Hst.
    destruct (nth_yield_cycle g gi Hall k 0 Hpos) as (b & Hb & Hk).
    destruct (nth_yield_cycle g gi Hall (k + DataGenerator.n_batches g) 0 Hpos)
      as (b' & Hb' & Hk').
    rewrite Hk, Hk'. split; [eauto|].
    simpl in Hb, Hb'.
    replace (k + DataGenerator.n_batches g)
      with (k + 1 * DataGenerator.n_batches g) in Hb' by lia.
    rewrite Nat.Div0.mod_add in Hb'. congruence. }
  split; [|split; [exact Hper|apply next_keeps_gen_idxs]].
  intros k b Hb.
  assert (Hsome : is_Some (DataGenerator.nth_yield g st
                             (k + DataGenerator.n_batches g))) by eauto.
  pose proof (nth_yield_n_batches g st _ Hsome) as Hpos.
  destruct (Hper Hpos) with (k := k) as [_ E].
  - intros j Hj. apply (nth_yield_prefix g st (k + DataGenerator.n_batches g));
      [lia|exact Hsome].
  - rewrite <- E. exact Hb.
Qed.

Lemma concatenate_axis0_rank a b t :
  concatenate_axis0 a b = Ok t -> match t with Arr0 _ _ => False | _ => True end.
Proof.
  unfold concatenate_axis0.
  destruct a as [| |ma], b as [| |mb]; try discriminate.
  - intros H. injection H as <-. exact I.
  - destruct (m_ncols ma =? m_ncols mb); [|discriminate].
    intros H. injection H as <-. exact I.
Qed.

Lemma DataGenerator_targets_rank fs out_fn t :
  DataGenerator.__get_targets fs out_fn = Ok t ->
  match t with Arr0 _ _ => False | _ => True end.
Proof.
  unfold DataGenerator.__get_targets. intros H. do 6 inv_bind H.
  injection H as <-. apply concatenate_axis0_rank in Ha4.
  destruct a4; simpl; auto.
Qed.

(** In "batches" mode the batch at position [i] is the window of
    [batch_size] samples that starts at the offset [gen_idxs[i]], clipped
    to the arrays; no batch raises. *)
Lemma batch_batches_mode_window fs dir out bs names tn conv g gi i b :
  DataGenerator.__init__ fs dir out bs names tn "batches" conv = Ok g ->
  gi !! i = Some b ->
  exists y,
    nd_slice b (b + bs) (DataGenerator.targets g) = Ok y /\
    DataGenerator.batch g gi i
      = Ok (features_slice b (b + bs) (DataGenerator.features g), y).
Proof.
  intros Hinit Hb.
  pose proof (DataGenerator_init_kind _ _ _ _ _ _ _ _ _ Hinit) as Hkind.
  assert (Ht : match DataGenerator.targets g with
               | Arr0 _ _ => False | _ => True end).
  { revert Hinit. unfold DataGenerator.__init__. intros H.
    destruct (decide (tn = ["SPDT"; "SPDQ"])) as [->|]; [|discriminate].
    inv_bind H. destruct a as [n f]. do 4 inv_bind H.
    injection H as <-. simpl.
    eapply DataGenerator_targets_rank; eassumption. }
  apply DataGenerator_init_Ok in Hinit as (_ & Hbs & _ & Hm & _).
  unfold DataGenerator.batch. rewrite Hm, Hbs, Hb. simpl.
  destruct (DataGenerator.features g) as [f|f2 f1]; rewrite Hkind; simpl;
    destruct (DataGenerator.targets g); try contradiction; simpl; eauto.
Qed.

Lemma batch_batches_mode_Ok fs dir out bs names tn conv g gi i :
  DataGenerator.__init__ fs dir out bs names tn "batches" conv = Ok g ->
  i < length gi ->
  exists b, DataGenerator.batch g gi i = Ok b.
Proof.
  intros Hinit Hi. apply lookup_lt_is_Some_2 in Hi as [b Hb].
  destruct (batch_batches_mode_window _ _ _ _ _ _ _ _ _ _ _ Hinit Hb)
    as (y & _ & H).
  eauto.
Qed.

(** ** The shuffle permutes *)

Lemma swap_Permutation (x : list nat) (i j : nat) : swap x i j ≡ₚ x.
Proof.
  unfold swap.
  destruct (x !! i) as [a|] eqn:Hi; [|reflexivity].
  destruct (x !! j) as [b|] eqn:Hj; [|reflexivity].
  apply Permutation_insert_swap; assumption.
Qed.

Lemma shuffle_from_Permutation (rng : nat -> nat) (i : nat) (x : list nat) :
  shuffle_from rng i x ≡ₚ x.
Proof.
  revert x. induction i as [|i IH]; intros x; simpl; [reflexivity|].
  rewrite IH. apply swap_Permutation.
Qed.

Lemma np_random_shuffle_Permutation (rng : nat -> nat) (x : list nat) :
  np_random_shuffle rng x ≡ₚ x.
Proof. apply shuffle_from_Permutation. Qed.

Lemma arange_step_length (stop step : nat) :
  0 < step -> stop / step <= length (arange_step stop step).
Proof.
  intros H. unfold arange_step. rewrite length_map, length_seq.
  apply Nat.Div0.div_le_mono. lia.
Qed.

Lemma arange_step_elem (stop step b : nat) :
  0 < step -> b ∈ arange_step stop step -> b mod step = 0 /\ b < stop.
Proof.
  intros H Hb. unfold arange_step in Hb.
  apply list_elem_of_fmap in Hb as (k & -> & Hk).
  apply elem_of_seq in Hk. split; [apply Nat.Div0.mod_mul|].
  destruct Hk as [_ Hk]. simpl in Hk.
  assert (k <= (stop + step - 1) / step - 1) by lia.
  pose proof (Nat.Div0.mul_div_le (stop + step - 1) step).
  nia.
Qed.

(** When [step] does not divide [stop], the offsets include the start of
    the incomplete trailing block, after those of the [stop / step] full
    blocks. *)
Lemma arange_step_remainder (stop step : nat) :
  0 < step -> stop mod step <> 0 ->
  length (arange_step stop step) = stop / step + 1 /\
  arange_step stop step !! (stop / step) = Some (stop / step * step).
Proof.
  intros Hpos Hrem.
  assert (E : (stop + step - 1) / step = stop / step + 1).
  { pose proof (Nat.div_mod_eq stop step) as Hdm.
    pose proof (Nat.mod_upper_bound stop step ltac:(lia)) as Hub.
    symmetry. apply (Nat.div_unique _ _ _ (stop mod step - 1)); nia. }
  unfold arange_step. rewrite E, length_map, length_seq. split; [reflexivity|].
  rewrite lookup_map, lookup_seq_lt by lia. reflexivity.
Qed.

(** The index copy of a "batches" generator holds batch-start offsets
    whatever the draw, and at least [n_batches] of them while the sample
    count is below [2 ^ 53]. *)
Lemma generate_batches_idxs fs dir out bs names tn conv g shuffle rng :
  DataGenerator.__init__ fs dir out bs names tn "batches" conv = Ok g ->
  let gi := DataGenerator.gen_idxs (DataGenerator.generate g shuffle rng) in
  ((Z.of_nat (DataGenerator.n_samples g) < 2 ^ 53)%Z ->
   DataGenerator.n_batches g <= length gi) /\
  forall b, b ∈ gi -> b mod bs = 0 /\ b < DataGenerator.n_samples g.
Proof.
  intros Hinit gi.
  apply DataGenerator_init_Ok in Hinit as (_ & _ & Hpos & _ & _ & Hnb & Hidx).
  simpl in Hidx.
  assert (Hperm : gi ≡ₚ DataGenerator.idxs g).
  { unfold gi, DataGenerator.generate. simpl.
    destruct shuffle; [apply np_random_shuffle_Permutation|reflexivity]. }
  split.
  - intros Hn. rewrite Hperm, Hidx, (Hnb Hn). apply arange_step_length.
    exact Hpos.
  - intros b Hb. rewrite Hperm, Hidx in Hb.
    apply arange_step_elem in Hb; assumption.
Qed.

(** A "batches" generator with at least one batch, of a file of fewer
    than [2 ^ 53] samples, yields at every step. *)
Lemma generate_batches_productive fs dir out bs names tn conv g shuffle rng k :
  DataGenerator.__init__ fs dir out bs names tn "batches" conv = Ok g ->
  (Z.of_nat (DataGenerator.n_samples g) < 2 ^ 53)%Z ->
  0 < DataGenerator.n_batches g ->
  is_Some (DataGenerator.nth_yield g (DataGenerator.generate g shuffle rng) k).
Proof.
  intros Hinit Hn Hpos.
  destruct (generate_batches_idxs _ _ _ _ _ _ _ _ shuffle rng Hinit) as [Hlen _].
  specialize (Hlen Hn).
  set (st := DataGenerator.generate g shuffle rng) in *.
  assert (Hst : st = {| DataGenerator.gen_idxs := DataGenerator.gen_idxs st;
                        DataGenerator.i := 0 |}) by reflexivity.
  rewrite Hst.
  destruct (nth_yield_cycle g (DataGenerator.gen_idxs st)) with (k := k) (i := 0)
    as (b & _ & Hb); [|exact Hpos|eauto].
  intros j Hj. eapply batch_batches_mode_Ok; [exact Hinit|lia].
Qed.

(** ** The constructors on the example directory *)

(** C1: [DataSet.__init__] has no check of [target_names]: given the pair
    [['TPHYSTND', 'PHQ']] it returns an object, which records that pair
    and holds the targets of [SPDT] and [SPDQ]; [DataGenerator.__init__]
    refuses the same pair. *)
Theorem DataSet_accepts_other_target_names :
  exists self self',
    DataSet.__init__ example_store "data/" "out.nc" "SPCAM_mean.nc"
      "SPCAM_std.nc" ["TAP"; "PS"] ["TPHYSTND"; "PHQ"] false float32 = Ok self /\
    DataSet.target_names self = ["TPHYSTND"; "PHQ"] /\
    DataSet.__init__ example_store "data/" "out.nc" "SPCAM_mean.nc"
      "SPCAM_std.nc" ["TAP"; "PS"] ["SPDT"; "SPDQ"] false float32 = Ok self' /\
    DataSet.targets self = DataSet.targets self' /\
    DataGenerator.__init__ example_store "data/" "out.nc" 2 ["TAP"; "PS"]
      ["TPHYSTND"; "PHQ"] "batches" false
      = Raise (AssertionError "No other targets implemented.").
Proof.
  eexists _, _.
  split; [vm_compute; reflexivity|].
  split; [reflexivity|].
  split; [vm_compute; reflexivity|].
  split; reflexivity.
Qed.

(** [DataGenerator.__init__] raises on any other pair, before it opens a
    file. *)
Lemma DataGenerator_init_asserts fs dir out bs names tn mode conv :
  tn <> ["SPDT"; "SPDQ"] ->
  DataGenerator.__init__ fs dir out bs names tn mode conv
    = Raise (AssertionError "No other targets implemented.").
Proof.
  intros H. unfold DataGenerator.__init__.
  destruct (decide (tn = ["SPDT"; "SPDQ"])); [contradiction|reflexivity].
Qed.

(** [DataSet.__init__] does not read [target_names]: it only records it. *)
Lemma DataSet_init_target_names fs dir out mean std names tn tn' conv dt :
  DataSet.__init__ fs dir out mean std names tn conv dt =
    (fun self =>
       {| DataSet.data_dir := DataSet.data_dir self;
          DataSet.out_fn := DataSet.out_fn self;
          DataSet.mean_fn := DataSet.mean_fn self;
          DataSet.std_fn := DataSet.std_fn self;
          DataSet.convolution := DataSet.convolution self;
          DataSet.feature_names := DataSet.feature_names self;
          DataSet.target_names := tn;
          DataSet.dtype := DataSet.dtype self;
          DataSet.n_samples := DataSet.n_samples self;
          DataSet.features := DataSet.features self;
          DataSet.targets := DataSet.targets self |})
    <$> DataSet.__init__ fs dir out mean std names tn' conv dt.
Proof.
  unfold DataSet.__init__.
  destruct (DataSet.__get_features _ _ _ _ _ _ _) as [[n f]|e]; simpl;
    [|reflexivity].
  destruct (DataSet.__get_targets _ _ _) as [t|e]; reflexivity.
Qed.

(** C2, counterexample: on double-precision files the loader, with its
    default precision, holds single-precision arrays while the generator
    holds double-precision ones, and the values differ: the normalised
    [TAP] of sample 1 at level 0 is 1/3 rounded to 24 bits in the one and
    to 53 bits in the other. *)
Lemma loader_and_generator_arrays_differ :
  exists ds dg a b,
    DataSet.__init__ example_store "data/" "out.nc" "SPCAM_mean.nc"
      "SPCAM_std.nc" ["TAP"; "PS"] ["SPDT"; "SPDQ"] false float32 = Ok ds /\
    DataGenerator.__init__ example_store "data/" "out.nc" 2 ["TAP"; "PS"]
      ["SPDT"; "SPDQ"] "batches" false = Ok dg /\
    DataSet.features ds <> DataGenerator.features dg /\
    DataSet.targets ds <> DataGenerator.targets dg /\
    flat_at (DataSet.features ds) 1 0 = Some a /\
    flat_at (DataGenerator.features dg) 1 0 = Some b /\
    SFeqb a b = false.
Proof.
  eexists _, _, _, _.
  split; [vm_compute; reflexivity|].
  split; [vm_compute; reflexivity|].
  split; [discriminate|].
  split; [discriminate|].
  split; [vm_compute; reflexivity|].
  split; [vm_compute; reflexivity|].
  vm_compute. reflexivity.
Qed.

(** C3, counterexample: three samples in batches of two, in a shuffle mode
    other than "batches". A full pass is one batch; whatever [shuffle] and
    the draw, it is the batch of the samples 0 and 1, in the first pass
    and in the next, so sample 2 is in no batch and the indices of a pass
    are not the full range. *)
Lemma other_modes_pass_misses_a_sample :
  exists g b,
    DataGenerator.__init__ example_store "data/" "out.nc" 2 ["TAP"; "PS"]
      ["SPDT"; "SPDQ"] "samples" false = Ok g /\
    DataGenerator.n_samples g = 3 /\
    DataGenerator.n_batches g = 1 /\
    mapM (DataGenerator.batch_idx g) (seq 0 (DataGenerator.n_batches g))
      = Ok [[0; 1]] /\
    samples_at g [0; 1] = Ok b /\
    (forall shuffle rng,
       DataGenerator.nth_yield g (DataGenerator.generate g shuffle rng) 0
         = Some b /\
       DataGenerator.nth_yield g (DataGenerator.generate g shuffle rng) 1
         = Some b) /\
    ~ concat [[0; 1]] ≡ₚ arange (DataGenerator.n_samples g).
Proof.
  eexists _, _.
  split; [vm_compute; reflexivity|].
  split; [reflexivity|].
  split; [reflexivity|].
  split; [vm_compute; reflexivity|].
  split; [vm_compute; reflexivity|].
  split.
  - intros shuffle rng. split; destruct shuffle; vm_compute; reflexivity.
  - intros H. apply Permutation_length in H. discriminate.
Qed.

(** C6: three samples, batches of two, "batches" mode, so one batch per
    pass and sample 2 in the remainder. The index set is [[0, 2]]; when
    the shuffle swaps it, the batch yielded first is the slice [2:4], that
    is sample 2 alone. *)
Theorem remainder_sample_yielded :
  exists g b,
    DataGenerator.__init__ example_store "data/" "out.nc" 2 ["TAP"; "PS"]
      ["SPDT"; "SPDQ"] "batches" false = Ok g /\
    DataGenerator.n_samples g = 3 /\
    DataGenerator.n_batches g = 1 /\
    DataGenerator.idxs g = [0; 2] /\
    DataGenerator.gen_idxs (DataGenerator.generate g true (fun _ => 0)) = [2; 0] /\
    DataGenerator.nth_yield g (DataGenerator.generate g true (fun _ => 0)) 0
      = Some b /\
    samples_at g [2] = Ok b.
Proof.
  eexists _, _.
  split; [vm_compute; reflexivity|].
  repeat (split; [reflexivity|]).
  split; vm_compute; reflexivity.
Qed.

(** C7: on the same generator and draw, the batch yielded first has one
    sample, not [batch_size = 2]. *)
Theorem short_batch_yielded :
  exists g x y,
    DataGenerator.__init__ example_store "data/" "out.nc" 2 ["TAP"; "PS"]
      ["SPDT"; "SPDQ"] "batches" false = Ok g /\
    DataGenerator.batch_size g = 2 /\
    DataGenerator.nth_yield g (DataGenerator.generate g true (fun _ => 0)) 0
      = Some (x, y) /\
    batch_len y = 1.
Proof.
  eexists _, _, _.
  split; [vm_compute; reflexivity|].
  split; [reflexivity|].
  split; [vm_compute; reflexivity|].
  reflexivity.
Qed.

(** ** The cast commutes with the assembly of the feature arrays *)

Lemma result_type_diag (dt : np_dtype) : result_type dt dt = dt.
Proof. destruct dt; reflexivity. Qed.

Lemma common_dtype_astype (dt : np_dtype) (m0 : mat) (ms : list mat) :
  common_dtype (astype dt m0) (map (astype dt) ms) = dt.
Proof.
  unfold common_dtype. simpl.
  induction ms as [|m ms IH]; simpl; [reflexivity|].
  rewrite result_type_diag. exact IH.
Qed.

Lemma zip_with_app_map {A B} (f : A -> B) (r acc : list (list A)) :
  zip_with app (map (map f) r) (map (map f) acc)
    = map (map f) (zip_with app r acc).
Proof.
  revert acc. induction r as [|x r IH]; intros [|y acc]; simpl;
    try reflexivity.
  rewrite map_app, IH. reflexivity.
Qed.

Lemma zip_with_cons_map {A B} (f : A -> B) (r : list A) (t : list (list A)) :
  zip_with cons (map f r) (map (map f) t) = map (map f) (zip_with cons r t).
Proof.
  revert t. induction r as [|x r IH]; intros [|y t]; simpl; try reflexivity.
  rewrite IH. reflexivity.
Qed.

Lemma replicate_nil_map {A B} (f : A -> B) (n : nat) :
  replicate n [] = map (map f) (replicate n []).
Proof. induction n as [|n IH]; simpl; [reflexivity|]. rewrite <- IH. reflexivity. Qed.

Lemma transpose_map {A B} (f : A -> B) (n : nat) (rows : list (list A)) :
  transpose n (map (map f) rows) = map (map f) (transpose n rows).
Proof.
  induction rows as [|r rows IH]; simpl.
  - apply replicate_nil_map.
  - rewrite IH. apply zip_with_cons_map.
Qed.

Lemma forallb_shape_astype (p : nat -> nat -> bool) (dt : np_dtype)
    (l : list mat) :
  forallb (fun m => p (length (m_rows m)) (m_ncols m)) (map (astype dt) l)
    = forallb (fun m => p (length (m_rows m)) (m_ncols m)) l.
Proof.
  induction l as [|m l IH]; simpl; [reflexivity|].
  rewrite length_map, IH. reflexivity.
Qed.

Lemma filter_map_astype (p : nat -> bool) (dt : np_dtype) (l : list mat) :
  List.filter (fun f => p (m_ncols f)) (map (astype dt) l)
    = map (astype dt) (List.filter (fun f => p (m_ncols f)) l).
Proof.
  induction l as [|m l IH]; simpl; [reflexivity|].
  destruct (p (m_ncols m)); simpl; rewrite IH; reflexivity.
Qed.

Lemma sum_ncols_astype (dt : np_dtype) (l : list mat) :
  sum_list_with m_ncols (map (astype dt) l) = sum_list_with m_ncols l.
Proof.
  induction l as [|m l IH]; simpl; [reflexivity|]. rewrite IH. reflexivity.
Qed.

Lemma hstack_astype (dt : np_dtype) (n : nat) (l : list mat) :
  foldr (fun m acc => zip_with app (m_rows m) acc) (replicate n [])
    (map (astype dt) l)
  = map (map (fcast dt))
      (foldr (fun m acc => zip_with app (m_rows m) acc) (replicate n []) l).
Proof.
  induction l as [|m l IH]; simpl.
  - apply replicate_nil_map.
  - rewrite IH. apply zip_with_app_map.
Qed.

Lemma concatenate_axis1_astype (dt : np_dtype) (l : list mat) :
  concatenate_axis1 (map (astype dt) l) = astype dt <$> concatenate_axis1 l.
Proof.
  destruct l as [|m0 ms]; [reflexivity|].
  unfold concatenate_axis1.
  change (map (astype dt) (m0 :: ms))
    with (astype dt m0 :: map (astype dt) ms).
  cbv beta iota.
  rewrite common_dtype_astype.
  change (astype dt m0 :: map (astype dt) ms)
    with (map (astype dt) (m0 :: ms)).
  rewrite sum_ncols_astype, hstack_astype.
  change (m_rows (astype dt m0)) with (map (map (fcast dt)) (m_rows m0)).
  rewrite length_map.
  pose proof (forallb_shape_astype
                (fun r _ => r =? length (m_rows m0)) dt ms) as E.
  simpl in E. rewrite E.
  destruct (forallb _ ms); reflexivity.
Qed.

Lemma stack_last_astype (dt : np_dtype) (l : list mat) :
  stack_last (map (astype dt) l) = astype3 dt <$> stack_last l.
Proof.
  destruct l as [|m0 ms]; [reflexivity|].
  unfold stack_last.
  change (map (astype dt) (m0 :: ms))
    with (astype dt m0 :: map (astype dt) ms).
  cbv beta iota.
  rewrite common_dtype_astype.
  change (astype dt m0 :: map (astype dt) ms)
    with (map (astype dt) (m0 :: ms)).
  change (m_rows (astype dt m0)) with (map (map (fcast dt)) (m_rows m0)).
  change (m_ncols (astype dt m0)) with (m_ncols m0).
  rewrite !length_map.
  pose proof (forallb_shape_astype
                (fun r c => (r =? length (m_rows m0)) && (c =? m_ncols m0))
                dt ms) as E.
  simpl in E. rewrite E.
  destruct (forallb _ ms); [|reflexivity].
  simpl fmap. unfold astype3. simpl a3_data. f_equal. f_equal.
  rewrite map_map.
  replace (map (fun x => m_rows (astype dt x)) (m0 :: ms))
    with (map (map (map (fcast dt))) (map m_rows (m0 :: ms)))
    by (rewrite map_map; reflexivity).
  rewrite transpose_map, !map_map.
  apply map_ext. intros y. apply transpose_map.
Qed.

Lemma load_feature_astype out_file mean_file std_file dt v :
  DataSet.load_feature out_file mean_file std_file dt v
    = astype dt <$> DataGenerator.load_feature out_file mean_file std_file v.
Proof.
  unfold DataSet.load_feature, DataGenerator.load_feature.
  destruct (getitem out_file v) as [raw|]; simpl; [|reflexivity].
  destruct (read_all raw) as [a|]; simpl; [|reflexivity].
  destruct (getitem mean_file v) as [mean|]; simpl; [|reflexivity].
  destruct (np_sub _ _) as [f|]; simpl; [|reflexivity].
  destruct (getitem std_file v) as [std|]; simpl; [|reflexivity].
  destruct (np_div _ _) as [f'|]; reflexivity.
Qed.

(** The loader's features are the generator's, cast; [n_samples] is the
    same. *)
Lemma get_features_astype fs out_fn mean_fn std_fn names conv dt :
  DataSet.__get_features fs out_fn mean_fn std_fn names conv dt
    = (fun nf => (fst nf, features_astype dt (snd nf)))
        <$> DataGenerator.__get_features fs out_fn mean_fn std_fn names conv.
Proof.
  unfold DataSet.__get_features, DataGenerator.__get_features.
  destruct (File fs out_fn) as [out_file|]; simpl; [|reflexivity].
  destruct (File fs mean_fn) as [mean_file|]; simpl; [|reflexivity].
  destruct (File fs std_fn) as [std_file|]; simpl; [|reflexivity].
  destruct (getitem out_file "TAP") as [tap|]; simpl; [|reflexivity].
  destruct (shape_at tap 1) as [n|]; simpl; [|reflexivity].
  rewrite (mapM_ext_result _ _ _ (load_feature_astype _ _ _ dt)).
  rewrite mapM_fmap_result.
  destruct (mapM _ names) as [f_list|]; simpl; [|reflexivity].
  destruct conv.
  - rewrite (filter_map_astype (fun c => 1 <? c)).
    rewrite (filter_map_astype (fun c => c =? 1)).
    rewrite stack_last_astype, concatenate_axis1_astype.
    destruct (stack_last _) as [f2|]; simpl; [|reflexivity].
    destruct (concatenate_axis1 _) as [f1|]; reflexivity.
  - rewrite concatenate_axis1_astype.
    destruct (concatenate_axis1 _) as [f|]; reflexivity.
Qed.

Lemma get_targets_astype fs out_fn dt :
  DataSet.__get_targets fs out_fn dt
    = nd_astype dt <$> DataGenerator.__get_targets fs out_fn.
Proof.
  unfold DataSet.__get_targets, DataGenerator.__get_targets.
  destruct (File fs out_fn) as [out_file|]; simpl; [|reflexivity].
  destruct (getitem out_file "SPDT") as [a|]; simpl; [|reflexivity].
  destruct (read_all a) as [a'|]; simpl; [|reflexivity].
  destruct (getitem out_file "SPDQ") as [b|]; simpl; [|reflexivity].
  destruct (read_all b) as [b'|]; simpl; [|reflexivity].
  destruct (concatenate_axis0 _ _) as [t|]; reflexivity.
Qed.

(** C2, as amended: on a common configuration, with the loader given the
    statistics files the generator fixes ([SPCAM_mean.nc] and
    [SPCAM_std.nc]), normalisation and target scaling are the same and the
    loader's arrays are the generator's cast to the loader's precision: the
    generator casts nothing, its arrays keep the precision the arithmetic
    on the stored data gives. *)
Theorem loader_is_generator_cast fs dir out bs names tn mode conv dt ds dg :
  DataSet.__init__ fs dir out "SPCAM_mean.nc" "SPCAM_std.nc" names tn conv dt
    = Ok ds ->
  DataGenerator.__init__ fs dir out bs names tn mode conv = Ok dg ->
  DataSet.features ds = features_astype dt (DataGenerator.features dg) /\
  DataSet.targets ds = nd_astype dt (DataGenerator.targets dg) /\
  DataSet.n_samples ds = DataGenerator.n_samples dg.
Proof.
  unfold DataSet.__init__, DataGenerator.__init__. intros Hds Hdg.
  destruct (decide (tn = ["SPDT"; "SPDQ"])) as [->|]; [|discriminate].
  rewrite get_features_astype, get_targets_astype in Hds.
  destruct (DataGenerator.__get_features _ _ _ _ _ _) as [[n f]|];
    [|discriminate].
  destruct (DataGenerator.__get_targets _ _) as [t|]; [|discriminate].
  simpl in Hds. injection Hds as <-.
  inv_bind Hdg. injection Ha as <-. inv_bind Hdg. injection Ha as <-.
  do 3 inv_bind Hdg. injection Hdg as <-. simpl. auto.
Qed.

(** ** Reading transposed, mapped and broadcast arrays *)

Lemma at2_map {A B} (f : A -> B) (rows : list (list A)) (i j : nat) :
  at2 (map (map f) rows) i j = f <$> at2 rows i j.
Proof.
  unfold at2. rewrite lookup_map.
  destruct (rows !! i) as [r|]; simpl; [apply lookup_map|reflexivity].
Qed.

Lemma at2_app_l {A} (r1 r2 : list (list A)) (i j : nat) :
  i < length r1 -> at2 (r1 ++ r2) i j = at2 r1 i j.
Proof. intros H. unfold at2. rewrite lookup_app_l by exact H. reflexivity. Qed.

Lemma at2_app_r {A} (r1 r2 : list (list A)) (i j : nat) :
  at2 (r1 ++ r2) (length r1 + i) j = at2 r2 i j.
Proof.
  unfold at2. rewrite lookup_app_r by lia.
  replace (length r1 + i - length r1) with i by lia. reflexivity.
Qed.

Lemma transpose_length {A} (n : nat) (rows : list (list A)) :
  Forall (fun r => length r = n) rows -> length (transpose n rows) = n.
Proof.
  induction 1 as [|r rows Hr _ IH]; simpl.
  - apply length_replicate.
  - rewrite length_zip_with, IH, Hr. lia.
Qed.

Lemma transpose_row_length {A} (n : nat) (rows : list (list A)) :
  Forall (fun r => length r = n) rows ->
  Forall (fun c => length c = length rows) (transpose n rows).
Proof.
  induction 1 as [|r rows Hr Hrows IH]; simpl.
  - apply Forall_forall. intros c Hc.
    apply elem_of_replicate in Hc as [-> _]. reflexivity.
  - apply Forall_forall. intros c Hc.
    apply list_elem_of_lookup in Hc as [i Hi].
    rewrite lookup_zip_with in Hi.
    destruct (r !! i) as [x|]; [|discriminate]. simpl in Hi.
    destruct (transpose n rows !! i) as [c'|] eqn:Hc'; [|discriminate].
    injection Hi as <-. simpl. f_equal.
    rewrite Forall_forall in IH. apply IH.
    apply list_elem_of_lookup. eauto.
Qed.

(** Element [[s][l]] of the transpose is element [[l][s]]. *)
Lemma transpose_at2 {A} (n : nat) (rows : list (list A)) (s l : nat) :
  Forall (fun r => length r = n) rows ->
  at2 (transpose n rows) s l = at2 rows l s.
Proof.
  intros H. revert l. induction H as [|r rows Hr Hrows IH]; intros l.
  - unfold at2. simpl.
    destruct (replicate n [] !! s) as [c|] eqn:E; simpl; [|reflexivity].
    apply lookup_replicate in E as [-> _]. reflexivity.
  - unfold at2 in *. simpl. rewrite lookup_zip_with.
    destruct (r !! s) as [x|] eqn:Ex; simpl;
      destruct (transpose n rows !! s) as [c|] eqn:Ec; simpl.
    + destruct l as [|l]; simpl; [congruence|]. exact (IH l).
    + apply lookup_lt_Some in Ex. apply lookup_ge_None in Ec.
      rewrite transpose_length in Ec by exact Hrows. lia.
    + apply lookup_ge_None in Ex. apply lookup_lt_Some in Ec.
      rewrite transpose_length in Ec by exact Hrows. lia.
    + destruct l as [|l]; simpl; [congruence|]. exact (IH l).
Qed.

Lemma bdim_refl (a : nat) : bdim a a = Ok a.
Proof. unfold bdim. rewrite Nat.eqb_refl. reflexivity. Qed.

Lemma bdim_1_r (a : nat) : bdim a 1 = Ok a.
Proof.
  unfold bdim. destruct (a =? 1) eqn:E; [reflexivity|]. reflexivity.
Qed.

Lemma stretch_self {A} (l : list A) : stretch (length l) l = l.
Proof. destruct l as [|x [|y l]]; reflexivity. Qed.

Lemma zip_with_replicate_row {A B C} (f : A -> B -> C) (l : list A) (y : B) :
  zip_with f l (replicate (length l) y) = map (fun x => f x y) l.
Proof. induction l as [|x l IH]; simpl; [reflexivity|]. rewrite IH. reflexivity. Qed.


Lemma stat_row_lookup (z : nat) (b : ndarray) (l : nat) :
  per_level z b -> l < z -> stat_row z b !! l = stat_at b l.
Proof.
  destruct b as [dt x|dt xs|m]; simpl; intros H Hl.
  - apply lookup_replicate. auto.
  - reflexivity.
  - contradiction.
Qed.

Lemma operand_cast_per_level (z : nat) (dt : np_dtype) (b : ndarray) :
  per_level z b -> per_level z (operand_cast dt b).
Proof. destruct b as [[] x|dtb xs|m]; destruct dt; simpl; auto. Qed.

(** A rank-2 array against a scalar or per-level statistic: no broadcast
    error, the shape of the array, and each element combined with the
    statistic of its level, as the operation reads it. *)
Lemma broadcast2_per_level op (a : mat) (b : ndarray) :
  wf_mat a -> per_level (m_ncols a) b ->
  let dt := result_type (m_dtype a) (operand_dtype b) in
  exists rows,
    broadcast2 op a b = Ok (Mat dt (m_ncols a) rows) /\
    length rows = length (m_rows a) /\
    Forall (fun r => length r = m_ncols a) rows /\
    forall s l,
      at2 rows s l =
        (x ← at2 (m_rows a) s l; y ← stat_at (operand_cast dt b) l;
         Some (op dt x y)).
Proof.
  intros Hwf Hb0 dt.
  pose proof (operand_cast_per_level _ dt b Hb0) as Hb.
  unfold broadcast2. fold dt.
  remember (operand_cast dt b) as b' eqn:Eb'. clear Eb' Hb0.
  pose proof Hwf as Hlen. unfold wf_mat in Hlen. rewrite Forall_forall in Hlen.
  exists (map (fun ra => zip_with (op dt) ra (stat_row (m_ncols a) b'))
            (m_rows a)).
  assert (Hrow : length (stat_row (m_ncols a) b') = m_ncols a).
  { destruct b'; simpl in *; [apply length_replicate|exact Hb|contradiction]. }
  split; [|split; [|split]].
  - assert (E : exists c rb,
                atleast_2d b' = Mat (nd_dtype b') c [rb] /\
                bdim (m_ncols a) c = Ok (m_ncols a) /\
                stretch (m_ncols a) rb = stat_row (m_ncols a) b').
    { destruct b' as [dtb x|dtb xs|m]; simpl in *.
      - exists 1, [x]. split; [reflexivity|].
        split; [apply bdim_1_r|reflexivity].
      - exists (length xs), xs. split; [reflexivity|]. rewrite Hb.
        split; [apply bdim_refl|]. rewrite <- Hb. apply stretch_self.
      - contradiction. }
    destruct E as (c & rb & E1 & E2 & E3). rewrite E1. simpl.
    rewrite bdim_1_r. simpl. rewrite E2. simpl.
    f_equal. f_equal. rewrite stretch_self.
    rewrite zip_with_replicate_row. rewrite E3.
    apply map_ext_in. intros ra Hra. f_equal.
    rewrite <- (Hlen ra); [apply stretch_self|].
    apply list_elem_of_In. exact Hra.
  - apply length_map.
  - apply Forall_forall. intros r Hr.
    apply list_elem_of_fmap in Hr as (ra & -> & Hra).
    rewrite length_zip_with, Hrow, (Hlen ra Hra). lia.
  - intros s l. unfold at2. rewrite lookup_map.
    destruct (m_rows a !! s) as [ra|] eqn:Era; simpl; [|reflexivity].
    rewrite lookup_zip_with.
    destruct (ra !! l) as [x|] eqn:Ex; simpl; [|reflexivity].
    assert (Hl : l < m_ncols a).
    { apply lookup_lt_Some in Ex. rewrite <- (Hlen ra); [exact Ex|].
      apply list_elem_of_lookup. eauto. }
    rewrite stat_row_lookup by assumption. reflexivity.
Qed.

(** ** Normalisation of a feature variable *)

Lemma atleast_2d_wf (a : ndarray) : wf_ndarray a -> wf_mat (atleast_2d a).
Proof.
  destruct a as [dt x|dt xs|m]; simpl; intros H; unfold wf_mat; simpl; auto.
Qed.

Lemma mat_T_wf (m : mat) : wf_mat m -> wf_mat (mat_T m).
Proof. intros H. unfold wf_mat, mat_T; simpl. apply transpose_row_length. exact H. Qed.

Lemma atleast_2d_T_at (a : ndarray) (s l : nat) :
  wf_ndarray a ->
  match a with Arr0 _ _ => False | _ => True end ->
  mat_at (mat_T (atleast_2d a)) s l = raw_at a l s.
Proof.
  intros Hwf Hrank. unfold mat_at, mat_T; simpl.
  rewrite transpose_at2 by (apply atleast_2d_wf; exact Hwf).
  destruct a as [dt x|dt xs|m]; simpl; [contradiction| |reflexivity].
  unfold at2. destruct l as [|l]; reflexivity.
Qed.

Lemma mat_at_astype (dt : np_dtype) (m : mat) (i j : nat) :
  mat_at (astype dt m) i j = fcast dt <$> mat_at m i j.
Proof. apply at2_map. Qed.

(** C9, as amended: for a stored variable [[level, sample]] or [[sample]]
    whose mean and standard deviation are scalars or per-level vectors, the
    generator's feature is [(raw - mean) / std] element-wise, sample
    leading, with the statistics of the same name taken at the level of
    the element; the loader's feature is that array cast to the configured
    precision. Each operation is computed in the dtype NumPy promotes its
    operands to, where a scalar statistic counts by its value: a float64
    scalar in the float32 range leaves a float32 variable in float32 and
    is rounded to float32 before the operation. *)
Theorem feature_is_normalised out_file mean_file std_file dt v raw mean std :
  out_file !! v = Some raw ->
  mean_file !! v = Some mean ->
  std_file !! v = Some std ->
  match raw with Arr0 _ _ => False | _ => True end ->
  wf_ndarray raw ->
  per_level (levels raw) mean ->
  per_level (levels raw) std ->
  let dt1 := result_type (nd_dtype raw) (operand_dtype mean) in
  let dt2 := result_type dt1 (operand_dtype std) in
  exists f,
    DataGenerator.load_feature out_file mean_file std_file v = Ok f /\
    DataSet.load_feature out_file mean_file std_file dt v = Ok (astype dt f) /\
    m_dtype f = dt2 /\
    m_ncols f = levels raw /\
    length (m_rows f) = samples raw /\
    forall s l,
      mat_at f s l =
        (x ← raw_at raw l s;
         mu ← stat_at (operand_cast dt1 mean) l;
         sd ← stat_at (operand_cast dt2 std) l;
         Some (fdiv dt2 (fsub dt1 x mu) sd)) /\
      mat_at (astype dt f) s l = fcast dt <$> mat_at f s l.
Proof.
  intros Hraw Hmean Hstd Hrank Hwf Hpm Hps dt1 dt2.
  remember (mat_T (atleast_2d raw)) as f0 eqn:Ef0.
  assert (Hf0 : wf_mat f0) by (subst f0; apply mat_T_wf, atleast_2d_wf, Hwf).
  assert (Hc0 : m_ncols f0 = levels raw) by (subst f0; destruct raw; reflexivity).
  assert (Hd0 : m_dtype f0 = nd_dtype raw) by (subst f0; destruct raw; reflexivity).
  assert (Hr0 : length (m_rows f0) = samples raw).
  { subst f0. unfold mat_T; simpl. rewrite transpose_length.
    - destruct raw; reflexivity.
    - apply atleast_2d_wf, Hwf. }
  assert (Hat0 : forall s l, at2 (m_rows f0) s l = raw_at raw l s).
  { intros s l. subst f0. apply atleast_2d_T_at; assumption. }
  rewrite <- Hc0 in Hpm, Hps.
  destruct (broadcast2_per_level fsub f0 mean Hf0 Hpm)
    as (rows1 & E1 & Hlen1 & Hwf1 & Hat1).
  rewrite Hd0 in E1, Hat1. fold dt1 in E1, Hat1.
  destruct (broadcast2_per_level fdiv (Mat dt1 (m_ncols f0) rows1) std Hwf1 Hps)
    as (rows2 & E2 & Hlen2 & Hwf2 & Hat2).
  cbn [m_dtype m_ncols m_rows] in E2, Hlen2, Hwf2, Hat2. fold dt2 in E2, Hat2.
  exists (Mat dt2 (m_ncols f0) rows2).
  assert (Hgen : DataGenerator.load_feature out_file mean_file std_file v
                 = Ok (Mat dt2 (m_ncols f0) rows2)).
  { unfold DataGenerator.load_feature, getitem, value, np_sub, np_div.
    rewrite Hraw, Hmean, Hstd. simpl.
    assert (Hread : read_all raw = Ok raw)
      by (destruct raw; [contradiction|reflexivity..]).
    rewrite Hread. simpl. rewrite <- Ef0, E1. simpl. rewrite E2.
    reflexivity. }
  split; [exact Hgen|].
  split; [rewrite load_feature_astype, Hgen; reflexivity|].
  split; [reflexivity|].
  split; [exact Hc0|].
  split; [simpl; lia|].
  intros s l. split; [|apply mat_at_astype].
  unfold mat_at; simpl. rewrite Hat2, Hat1, Hat0.
  destruct (raw_at raw l s); simpl; [|reflexivity].
  destruct (stat_at (operand_cast dt1 mean) l); simpl; reflexivity.
Qed.

(** C9, counterexample: the files are in double precision and the loader
    casts to single precision (its default). The normalised [TAP] of sample
    1 at level 0 is [(2 - 1) / 3]; the loader holds that quotient rounded
    to 24 bits, which is not the quotient. *)
Lemma loader_feature_is_not_the_quotient :
  exists ds x,
    DataSet.__init__ example_store "data/" "out.nc" "SPCAM_mean.nc"
      "SPCAM_std.nc" ["TAP"; "PS"] ["SPDT"; "SPDQ"] false float32 = Ok ds /\
    flat_at (DataSet.features ds) 1 0 = Some x /\
    (raw ← out_nc !! "TAP"; raw_at raw 0 1) = Some (fl 2) /\
    (mean ← mean_nc !! "TAP"; stat_at mean 0) = Some (fl 1) /\
    (std ← std_nc !! "TAP"; stat_at std 0) = Some (fl 3) /\
    SFeqb x (fdiv float64 (fsub float64 (fl 2) (fl 1)) (fl 3)) = false.
Proof.
  eexists _, _.
  split; [vm_compute; reflexivity|].
  split; [vm_compute; reflexivity|].
  repeat (split; [reflexivity|]).
  vm_compute. reflexivity.
Qed.

(** ** The target matrix *)

(** C5, as amended: the two tendencies are read in the fixed order,
    multiplied by 1000 and by 2.5e6, concatenated along the first axis of
    storage, which is the level axis of a [[level, sample]] variable, and
    transposed. For tendencies of [z1] and [z2] levels the target matrix
    has a row per sample and [z1 + z2] columns: column [l < z1] is level
    [l] of the heating times 1000, column [z1 + l] is level [l] of the
    moistening times 2.5e6 (columns 0 and 1 when both have one level). The
    loader casts the matrix to its precision. *)
Theorem targets_layout fs out_fn out_file dt ma mb :
  fs !! out_fn = Some out_file ->
  out_file !! "SPDT" = Some (Arr2 ma) ->
  out_file !! "SPDQ" = Some (Arr2 mb) ->
  wf_mat ma -> wf_mat mb ->
  m_ncols ma = m_ncols mb ->
  exists t,
    DataGenerator.__get_targets fs out_fn = Ok (Arr2 t) /\
    DataSet.__get_targets fs out_fn dt = Ok (Arr2 (astype dt t)) /\
    length (m_rows t) = m_ncols ma /\
    m_ncols t = length (m_rows ma) + length (m_rows mb) /\
    forall s l,
      (l < length (m_rows ma) ->
       mat_at t s l = (fun x => fmul (m_dtype ma) x py_1000) <$> mat_at ma l s) /\
      mat_at t s (length (m_rows ma) + l)
        = (fun x => fmul (m_dtype mb) x py_2_5e6) <$> mat_at mb l s /\
      mat_at (astype dt t) s l = fcast dt <$> mat_at t s l.
Proof.
  intros Hfs Ht Hq Hwa Hwb Hcols.
  set (ra := map (map (fun x => fmul (m_dtype ma) x py_1000)) (m_rows ma)).
  set (rb := map (map (fun x => fmul (m_dtype mb) x py_2_5e6)) (m_rows mb)).
  assert (Hwf : Forall (fun r => length r = m_ncols ma) (ra ++ rb)).
  { apply Forall_app. split; apply Forall_forall; intros r Hr;
      apply list_elem_of_fmap in Hr as (r0 & -> & Hr0); rewrite length_map.
    - unfold wf_mat in Hwa. rewrite Forall_forall in Hwa. auto.
    - unfold wf_mat in Hwb. rewrite Forall_forall in Hwb. rewrite Hcols. auto. }
  exists (mat_T (Mat (result_type (m_dtype ma) (m_dtype mb)) (m_ncols ma)
                   (ra ++ rb))).
  assert (Hgen : DataGenerator.__get_targets fs out_fn
                 = Ok (Arr2 (mat_T (Mat (result_type (m_dtype ma) (m_dtype mb))
                                      (m_ncols ma) (ra ++ rb))))).
  { unfold DataGenerator.__get_targets, File, getitem.
    rewrite Hfs. simpl. rewrite Ht, Hq. simpl.
    rewrite Hcols, Nat.eqb_refl. reflexivity. }
  split; [exact Hgen|].
  split; [rewrite get_targets_astype, Hgen; reflexivity|].
  unfold mat_T; simpl.
  split; [apply transpose_length; exact Hwf|].
  split; [unfold ra, rb; rewrite length_app, !length_map; reflexivity|].
  intros s l. unfold mat_at at 1 3; simpl.
  rewrite !transpose_at2 by exact Hwf.
  replace (length (m_rows ma)) with (length ra)
    by (unfold ra; apply length_map).
  split; [|split].
  - intros Hl. rewrite at2_app_l by exact Hl. apply at2_map.
  - rewrite at2_app_r. apply at2_map.
  - apply (mat_at_astype dt (mat_T (Mat _ (m_ncols ma) (ra ++ rb)))).
Qed.

(** Tendencies stored with the single axis [[sample]] give no matrix: the
    targets are the vector of the scaled heating followed by the scaled
    moistening. *)
Lemma targets_of_rank1 fs out_fn out_file da xs db ys :
  fs !! out_fn = Some out_file ->
  out_file !! "SPDT" = Some (Arr1 da xs) ->
  out_file !! "SPDQ" = Some (Arr1 db ys) ->
  DataGenerator.__get_targets fs out_fn
    = Ok (Arr1 (result_type da db)
            (map (fun x => fmul da x py_1000) xs
             ++ map (fun x => fmul db x py_2_5e6) ys)).
Proof.
  intros Hfs Ht Hq. unfold DataGenerator.__get_targets, File, getitem.
  rewrite Hfs. simpl. rewrite Ht, Hq. reflexivity.
Qed.

(** C5, counterexample: with tendencies of two levels, column 1 of the
    target matrix is level 1 of the heating times 1000 (here 4 * 1000 for
    sample 0), and no level of the moistening times 2.5e6. *)
Lemma target_column_1_is_heating :
  exists dg x h,
    DataGenerator.__init__ example_store "data/" "out.nc" 2 ["TAP"; "PS"]
      ["SPDT"; "SPDQ"] "batches" false = Ok dg /\
    nd_at (DataGenerator.targets dg) 0 1 = Some x /\
    (spdt ← out_nc !! "SPDT"; raw_at spdt 1 0) = Some h /\
    x = fmul float64 h py_1000 /\
    forall l q,
      (spdq ← out_nc !! "SPDQ"; raw_at spdq l 0) = Some q ->
      SFeqb x (fmul float64 q py_2_5e6) = false.
Proof.
  eexists _, _, _.
  split; [vm_compute; reflexivity|].
  split; [vm_compute; reflexivity|].
  split; [vm_compute; reflexivity|].
  split; [vm_compute; reflexivity|].
  intros l q H.
  destruct l as [|[|l]]; vm_compute in H; [| |discriminate];
    injection H as <-; vm_compute; reflexivity.
Qed.

(** ** The sample count is read from [TAP] *)

(** C10: both constructors take [n_samples] from the shape of the variable
    ['TAP'] of the output file. When the three files open and the output
    file has no ['TAP'], construction raises [KeyError('TAP')], whatever
    the requested features are and whether or not they and the targets are
    in the files. *)
Theorem TAP_is_required fs dir out names conv out_file :
  fs !! (dir +:+ out) = Some out_file ->
  out_file !! "TAP" = None ->
  (forall mean std tn dt,
     is_Some (fs !! (dir +:+ mean)) ->
     is_Some (fs !! (dir +:+ std)) ->
     DataSet.__init__ fs dir out mean std names tn conv dt
       = Raise (KeyError "TAP")) /\
  (forall bs mode,
     is_Some (fs !! (dir +:+ "SPCAM_mean.nc")) ->
     is_Some (fs !! (dir +:+ "SPCAM_std.nc")) ->
     DataGenerator.__init__ fs dir out bs names ["SPDT"; "SPDQ"] mode conv
       = Raise (KeyError "TAP")).
Proof.
  intros Hout Htap. split.
  - intros mean std tn dt [fm Hm] [fsd Hs].
    unfold DataSet.__init__, DataSet.__get_features, File, getitem.
    rewrite Hout, Hm, Hs. simpl. rewrite Htap. reflexivity.
  - intros bs mode [fm Hm] [fsd Hs].
    unfold DataGenerator.__init__, DataGenerator.__get_features, File, getitem.
    destruct (decide (["SPDT"; "SPDQ"] = ["SPDT"; "SPDQ"])); [|contradiction].
    rewrite Hout, Hm, Hs. simpl. rewrite Htap. reflexivity.
Qed.

(** ** The theorems on the example directory *)

(** The loader and the generator on the example directory, in convolution
    mode. *)
Lemma loader_is_generator_cast_witness :
  exists ds dg,
    DataSet.__init__ example_store "data/" "out.nc" "SPCAM_mean.nc"
      "SPCAM_std.nc" ["TAP"; "PS"] ["SPDT"; "SPDQ"] true float32 = Ok ds /\
    DataGenerator.__init__ example_store "data/" "out.nc" 2 ["TAP"; "PS"]
      ["SPDT"; "SPDQ"] "batches" true = Ok dg /\
    (DataSet.features ds = features_astype float32 (DataGenerator.features dg) /\
     DataSet.targets ds = nd_astype float32 (DataGenerator.targets dg) /\
     DataSet.n_samples ds = DataGenerator.n_samples dg).
Proof.
  eexists _, _.
  split; [vm_compute; reflexivity|].
  split; [vm_compute; reflexivity|].
  apply (loader_is_generator_cast example_store "data/" "out.nc" 2
           ["TAP"; "PS"] ["SPDT"; "SPDQ"] "batches" true float32);
    vm_compute; reflexivity.
Defined.

(** Every pass over the example directory, sample by sample, shuffled by
    the draw that is always 0. *)
Lemma other_modes_pass_indices_witness :
  exists g,
    DataGenerator.__init__ example_store "data/" "out.nc" 1 ["TAP"; "PS"]
      ["SPDT"; "SPDQ"] "samples" false = Ok g /\
    "samples" <> "batches" /\
    DataGenerator.n_samples g <= features_len (DataGenerator.features g) /\
    DataGenerator.n_samples g <= batch_len (DataGenerator.targets g) /\
    exists pass : list (list nat),
      length pass = DataGenerator.n_batches g /\
      (forall p i, i < DataGenerator.n_batches g ->
         exists idx b,
           pass !! i = Some idx /\
           samples_at g idx = Ok b /\
           DataGenerator.nth_yield g
             (DataGenerator.generate g true (fun _ => 0))
             (p * DataGenerator.n_batches g + i) = Some b) /\
      Forall (fun idx => length idx = 1) pass /\
      length (concat pass) = DataGenerator.n_batches g * 1 /\
      NoDup (concat pass) /\
      Forall (fun j => j < DataGenerator.n_samples g) (concat pass) /\
      (DataGenerator.n_samples g mod 1 = 0 ->
       concat pass ≡ₚ arange (DataGenerator.n_samples g)).
Proof.
  eexists.
  split; [vm_compute; reflexivity|].
  split; [discriminate|].
  split; [vm_compute; lia|].
  split; [vm_compute; lia|].
  apply (other_modes_pass_indices example_store "data/" "out.nc" 1
           ["TAP"; "PS"] ["SPDT"; "SPDQ"] "samples" false _ true (fun _ => 0));
    [vm_compute; reflexivity|discriminate|vm_compute; lia|vm_compute; lia].
Defined.


(** The targets of the example directory: two levels each, three samples. *)
Lemma targets_layout_witness :
  exists ma mb,
    example_store !! "data/out.nc" = Some out_nc /\
    out_nc !! "SPDT" = Some (Arr2 ma) /\
    out_nc !! "SPDQ" = Some (Arr2 mb) /\
    wf_mat ma /\ wf_mat mb /\
    m_ncols ma = m_ncols mb /\
    exists t,
      DataGenerator.__get_targets example_store "data/out.nc" = Ok (Arr2 t) /\
      DataSet.__get_targets example_store "data/out.nc" float32
        = Ok (Arr2 (astype float32 t)) /\
      length (m_rows t) = m_ncols ma /\
      m_ncols t = length (m_rows ma) + length (m_rows mb) /\
      forall s l,
        (l < length (m_rows ma) ->
         mat_at t s l
           = (fun x => fmul (m_dtype ma) x py_1000) <$> mat_at ma l s) /\
        mat_at t s (length (m_rows ma) + l)
          = (fun x => fmul (m_dtype mb) x py_2_5e6) <$> mat_at mb l s /\
        mat_at (astype float32 t) s l = fcast float32 <$> mat_at t s l.
Proof.
  eexists _, _.
  split; [reflexivity|].
  split; [reflexivity|].
  split; [reflexivity|].
  assert (Ha : wf_mat (Mat float64 3 [[fl 1; fl 2; fl 3]; [fl 4; fl 5; fl 6]]))
    by (repeat constructor).
  assert (Hb : wf_mat (Mat float64 3 [[fl 10; fl 20; fl 30];
                                      [fl 40; fl 50; fl 60]]))
    by (repeat constructor).
  split; [exact Ha|]. split; [exact Hb|]. split; [reflexivity|].
  apply (targets_layout example_store "data/out.nc" out_nc float32 _ _
           eq_refl eq_refl eq_refl Ha Hb eq_refl).
Defined.

(** Three batches of one sample, shuffled by the draw that is always 0. *)
Lemma generate_periodic_witness :
  exists g b,
    DataGenerator.__init__ example_store "data/" "out.nc" 1 ["TAP"; "PS"]
      ["SPDT"; "SPDQ"] "batches" false = Ok g /\
    DataGenerator.nth_yield g (DataGenerator.generate g true (fun _ => 0))
      (1 + DataGenerator.n_batches g) = Some b /\
    DataGenerator.nth_yield g (DataGenerator.generate g true (fun _ => 0)) 1
      = Some b /\
    0 < DataGenerator.n_batches g /\
    (forall j, j < DataGenerator.n_batches g ->
       is_Some (DataGenerator.nth_yield g
                  (DataGenerator.generate g true (fun _ => 0)) j)) /\
    (forall k,
       is_Some (DataGenerator.nth_yield g
                  (DataGenerator.generate g true (fun _ => 0)) k) /\
       DataGenerator.nth_yield g (DataGenerator.generate g true (fun _ => 0))
         (k + DataGenerator.n_batches g) =
       DataGenerator.nth_yield g (DataGenerator.generate g true (fun _ => 0)) k).
Proof.
  eexists _, _.
  split; [vm_compute; reflexivity|].
  match goal with
  | |- _ /\ _ /\ _ /\ ?H /\ _ =>
      assert (Hfirst : H)
        by (intros [|[|[|j]]] Hj;
            [vm_compute; eexists; reflexivity ..
            |vm_compute in Hj; lia])
  end.
  match goal with
  | |- DataGenerator.nth_yield ?g _ _ = _ /\ _ =>
      destruct (generate_periodic g true (fun _ => 0)) as (Hstep & Hper & _)
  end.
  split; [vm_compute; reflexivity|].
  split; [apply Hstep; vm_compute; reflexivity|].
  split; [vm_compute; lia|].
  split; [exact Hfirst|].
  apply Hper; [vm_compute; lia|exact Hfirst].
Defined.

(** A single-precision [PS] with the double-precision scalar statistics
    of the example directory: the feature is computed in single
    precision. *)
Lemma feature_is_normalised_witness :
  exists raw mean std,
    ps32_nc !! "PS" = Some raw /\
    mean_nc !! "PS" = Some mean /\
    std_nc !! "PS" = Some std /\
    match raw with Arr0 _ _ => False | _ => True end /\
    wf_ndarray raw /\
    per_level (levels raw) mean /\
    per_level (levels raw) std /\
    exists f,
      DataGenerator.load_feature ps32_nc mean_nc std_nc "PS" = Ok f /\
      DataSet.load_feature ps32_nc mean_nc std_nc float64 "PS"
        = Ok (astype float64 f) /\
      m_dtype f = float32 /\
      m_ncols f = levels raw /\
      length (m_rows f) = samples raw /\
      forall s l,
        mat_at f s l =
          (x ← raw_at raw l s;
           mu ← stat_at (operand_cast float32 mean) l;
           sd ← stat_at (operand_cast float32 std) l;
           Some (fdiv float32 (fsub float32 x mu) sd)) /\
        mat_at (astype float64 f) s l = fcast float64 <$> mat_at f s l.
Proof.
  eexists _, _, _.
  split; [reflexivity|].
  split; [reflexivity|].
  split; [reflexivity|].
  split; [exact I|].
  split; [exact I|].
  split; [exact I|].
  split; [exact I|].
  apply (feature_is_normalised ps32_nc mean_nc std_nc float64 "PS" _ _ _
           eq_refl eq_refl eq_refl I I I I).
Defined.

(** The value of that feature at sample 0: [(80 - 1) / 3] in single
    precision, [13806251 * 2 ^ -19]; in double precision the quotient
    would be [7412174386713941 * 2 ^ -48]. *)
Lemma float32_variable_stays_float32 :
  exists f,
    DataGenerator.load_feature ps32_nc mean_nc std_nc "PS" = Ok f /\
    m_dtype f = float32 /\
    mat_at f 0 0 = Some (S754_finite false 13806251 (-19)) /\
    fdiv float64 (fsub float64 (fl 80) (fl 1)) (fl 3)
      = S754_finite false 7412174386713941 (-48).
Proof.
  eexists. split; [vm_compute; reflexivity|].
  repeat split; vm_compute; reflexivity.
Qed.

(** The example directory without [TAP], asked for [PS] alone. *)
Lemma TAP_is_required_witness :
  store_without_TAP !! ("data/" +:+ "out.nc") = Some (delete "TAP" out_nc) /\
  delete "TAP" out_nc !! "TAP" = None /\
  is_Some (store_without_TAP !! ("data/" +:+ "SPCAM_mean.nc")) /\
  is_Some (store_without_TAP !! ("data/" +:+ "SPCAM_std.nc")) /\
  DataSet.__init__ store_without_TAP "data/" "out.nc" "SPCAM_mean.nc"
    "SPCAM_std.nc" ["PS"] ["SPDT"; "SPDQ"] false float32
    = Raise (KeyError "TAP") /\
  DataGenerator.__init__ store_without_TAP "data/" "out.nc" 2 ["PS"]
    ["SPDT"; "SPDQ"] "batches" false
    = Raise (KeyError "TAP").
Proof.
  assert (Hm : is_Some (store_without_TAP !! ("data/" +:+ "SPCAM_mean.nc")))
    by (eexists; reflexivity).
  assert (Hs : is_Some (store_without_TAP !! ("data/" +:+ "SPCAM_std.nc")))
    by (eexists; reflexivity).
  split; [reflexivity|].
  split; [reflexivity|].
  split; [exact Hm|].
  split; [exact Hs|].
  destruct (TAP_is_required store_without_TAP "data/" "out.nc" ["PS"] false
              (delete "TAP" out_nc) eq_refl eq_refl) as [Hds Hdg].
  split.
  - apply Hds; assumption.
  - apply Hdg; assumption.
Defined.


(** * Further properties of the two classes *)

(** ** Failures of construction *)

(** X1: both constructors open the output file, the mean file and the
    standard-deviation file in this order, under the names made by
    appending the file name to [data_dir] as it is; the first one that
    cannot be opened raises OSError, before any variable is read. *)
Theorem missing_file_raises_OSError fs dir out names conv p :
  (forall mean std tn dt,
     first_missing fs [dir +:+ out; dir +:+ mean; dir +:+ std] = Some p ->
     DataSet.__init__ fs dir out mean std names tn conv dt
       = Raise (OSError p)) /\
  (forall bs mode,
     first_missing fs [dir +:+ out; dir +:+ "SPCAM_mean.nc";
                       dir +:+ "SPCAM_std.nc"] = Some p ->
     DataGenerator.__init__ fs dir out bs names ["SPDT"; "SPDQ"] mode conv
       = Raise (OSError p)).
Proof.
  assert (Hgen : forall a b c,
            first_missing fs [a; b; c] = Some p ->
            (f1 ← File fs a; f2 ← File fs b; f3 ← File fs c;
             Ok (f1, f2, f3)) = Raise (OSError p)).
  { intros a b c H. unfold first_missing in H. simpl in H. unfold File.
    destruct (fs !! a); [|injection H as <-; reflexivity]. simpl.
    destruct (fs !! b); [|injection H as <-; reflexivity]. simpl.
    destruct (fs !! c); [discriminate|injection H as <-; reflexivity]. }
  split.
  - intros mean std tn dt H. apply Hgen in H.
    unfold DataSet.__init__, DataSet.__get_features.
    destruct (File fs (dir +:+ out)); simpl in *; [|congruence].
    destruct (File fs (dir +:+ mean)); simpl in *; [|congruence].
    destruct (File fs (dir +:+ std)); simpl in *; [discriminate|congruence].
  - intros bs mode H. apply Hgen in H.
    unfold DataGenerator.__init__, DataGenerator.__get_features.
    destruct (decide (["SPDT"; "SPDQ"] = ["SPDT"; "SPDQ"])); [|contradiction].
    destruct (File fs (dir +:+ out)); simpl in *; [|congruence].
    destruct (File fs (dir +:+ "SPCAM_mean.nc")); simpl in *; [|congruence].
    destruct (File fs (dir +:+ "SPCAM_std.nc")); simpl in *;
      [discriminate|congruence].
Qed.

(** A directory name without its separator: the names are appended to it
    as it is, so the output file is looked for as ["dataout.nc"]. *)
Lemma missing_file_raises_OSError_witness :
  first_missing example_store
    ["data" +:+ "out.nc"; "data" +:+ "SPCAM_mean.nc"; "data" +:+ "SPCAM_std.nc"]
    = Some "dataout.nc" /\
  DataSet.__init__ example_store "data" "out.nc" "SPCAM_mean.nc" "SPCAM_std.nc"
    ["TAP"] ["SPDT"; "SPDQ"] false float32 = Raise (OSError "dataout.nc") /\
  DataGenerator.__init__ example_store "data" "out.nc" 2 ["TAP"]
    ["SPDT"; "SPDQ"] "batches" false = Raise (OSError "dataout.nc").
Proof.
  split; [reflexivity|].
  destruct (missing_file_raises_OSError example_store "data" "out.nc" ["TAP"]
              false "dataout.nc") as [Hds Hdg].
  split; [apply Hds; reflexivity|apply Hdg; reflexivity].
Defined.

(** X2: the sample count is [out_file['TAP'].shape[1]]: when [TAP] is
    stored with fewer than two axes, both constructors raise IndexError,
    whatever the requested features are. *)
Theorem TAP_needs_two_axes fs dir out names conv out_file tap :
  fs !! (dir +:+ out) = Some out_file ->
  out_file !! "TAP" = Some tap ->
  length (shape tap) < 2 ->
  (forall mean std tn dt,
     is_Some (fs !! (dir +:+ mean)) ->
     is_Some (fs !! (dir +:+ std)) ->
     DataSet.__init__ fs dir out mean std names tn conv dt = Raise IndexError) /\
  (forall bs mode,
     is_Some (fs !! (dir +:+ "SPCAM_mean.nc")) ->
     is_Some (fs !! (dir +:+ "SPCAM_std.nc")) ->
     DataGenerator.__init__ fs dir out bs names ["SPDT"; "SPDQ"] mode conv
       = Raise IndexError).
Proof.
  intros Hout Htap Hrank.
  assert (Hshape : shape_at tap 1 = Raise IndexError).
  { unfold shape_at. destruct tap as [dt x|dt xs|m]; simpl in *;
      [reflexivity|reflexivity|lia]. }
  split.
  - intros mean std tn dt [fm Hm] [fsd Hs].
    unfold DataSet.__init__, DataSet.__get_features, File, getitem.
    rewrite Hout, Hm, Hs. simpl. rewrite Htap. simpl. rewrite Hshape.
    reflexivity.
  - intros bs mode [fm Hm] [fsd Hs].
    unfold DataGenerator.__init__, DataGenerator.__get_features, File, getitem.
    destruct (decide (["SPDT"; "SPDQ"] = ["SPDT"; "SPDQ"])); [|contradiction].
    rewrite Hout, Hm, Hs. simpl. rewrite Htap. simpl. rewrite Hshape.
    reflexivity.
Qed.

(** [TAP] stored as [[sample]], and only [PS] requested. *)
Lemma TAP_needs_two_axes_witness :
  store_flat_TAP !! ("data/" +:+ "out.nc")
    = Some (<["TAP" := Arr1 float64 [fl 1; fl 2; fl 3]]> out_nc) /\
  (<["TAP" := Arr1 float64 [fl 1; fl 2; fl 3]]> out_nc) !! "TAP"
    = Some (Arr1 float64 [fl 1; fl 2; fl 3]) /\
  length (shape (Arr1 float64 [fl 1; fl 2; fl 3])) < 2 /\
  DataSet.__init__ store_flat_TAP "data/" "out.nc" "SPCAM_mean.nc"
    "SPCAM_std.nc" ["PS"] ["SPDT"; "SPDQ"] false float32 = Raise IndexError /\
  DataGenerator.__init__ store_flat_TAP "data/" "out.nc" 2 ["PS"]
    ["SPDT"; "SPDQ"] "batches" false = Raise IndexError.
Proof.
  assert (Hrank : length (shape (Arr1 float64 [fl 1; fl 2; fl 3])) < 2)
    by (simpl; lia).
  split; [reflexivity|]. split; [reflexivity|]. split; [exact Hrank|].
  destruct (TAP_needs_two_axes store_flat_TAP "data/" "out.nc" ["PS"] false
              _ _ eq_refl eq_refl Hrank) as [Hds Hdg].
  split.
  - apply Hds; eexists; reflexivity.
  - apply Hdg; eexists; reflexivity.
Defined.

(** X3: a batch size of 0 is refused with ZeroDivisionError, and only
    once the data are loaded: on a directory and names for which a positive
    batch size gives a generator, batch size 0 raises ZeroDivisionError. *)
Theorem zero_batch_size_raises fs dir out bs names tn mode conv g :
  DataGenerator.__init__ fs dir out bs names tn mode conv = Ok g ->
  DataGenerator.__init__ fs dir out 0 names tn mode conv
    = Raise ZeroDivisionError.
Proof.
  unfold DataGenerator.__init__. intros H.
  destruct (decide (tn = ["SPDT"; "SPDQ"])); [|discriminate].
  destruct (DataGenerator.__get_features _ _ _ _ _ _) as [[n f]|];
    [|discriminate].
  destruct (DataGenerator.__get_targets _ _) as [t|]; [|discriminate].
  reflexivity.
Qed.

Lemma zero_batch_size_raises_witness :
  exists g,
    DataGenerator.__init__ example_store "data/" "out.nc" 2 ["TAP"; "PS"]
      ["SPDT"; "SPDQ"] "batches" false = Ok g /\
    DataGenerator.__init__ example_store "data/" "out.nc" 0 ["TAP"; "PS"]
      ["SPDT"; "SPDQ"] "batches" false = Raise ZeroDivisionError.
Proof.
  eexists. split; [vm_compute; reflexivity|].
  eapply (zero_batch_size_raises example_store "data/" "out.nc" 2
            ["TAP"; "PS"] ["SPDT"; "SPDQ"] "batches" false).
  vm_compute. reflexivity.
Defined.

(** ** Failures of the loading loop *)

Lemma mapM_stops_at {A B} (f : A -> result B) (pre post : list A) (x : A) e :
  Forall (fun y => exists b, f y = Ok b) pre ->
  f x = Raise e ->
  mapM f (pre ++ x :: post)%list = Raise e.
Proof.
  intros Hpre Hx. induction Hpre as [|y pre [b Hy] _ IH]; simpl.
  - rewrite Hx. reflexivity.
  - rewrite Hy. simpl. rewrite IH. reflexivity.
Qed.

(** When the loop over the feature names fails at a name, after the names
    before it have loaded, both [__get_features] raise what it raised. *)
Lemma get_features_loop_fails fs out_fn mean_fn std_fn conv dt
    out_file mean_file std_file tap pre v post e :
  fs !! out_fn = Some out_file ->
  fs !! mean_fn = Some mean_file ->
  fs !! std_fn = Some std_file ->
  out_file !! "TAP" = Some tap ->
  2 <= length (shape tap) ->
  Forall (fun u => exists f,
            DataGenerator.load_feature out_file mean_file std_file u = Ok f)
    pre ->
  DataGenerator.load_feature out_file mean_file std_file v = Raise e ->
  DataGenerator.__get_features fs out_fn mean_fn std_fn
    (pre ++ v :: post)%list conv = Raise e /\
  DataSet.__get_features fs out_fn mean_fn std_fn
    (pre ++ v :: post)%list conv dt = Raise e.
Proof.
  intros Hout Hmean Hstd Htap Hrank Hpre Hv.
  assert (Hgen : DataGenerator.__get_features fs out_fn mean_fn std_fn
                   (pre ++ v :: post)%list conv = Raise e).
  { unfold DataGenerator.__get_features, File, getitem.
    rewrite Hout, Hmean, Hstd. simpl. rewrite Htap. simpl.
    assert (Hshape : exists n, shape_at tap 1 = Ok n).
    { unfold shape_at. destruct tap as [| |m]; simpl in *; try lia. eauto. }
    destruct Hshape as [n ->]. simpl.
    rewrite (mapM_stops_at _ pre post v e Hpre Hv). reflexivity. }
  split; [exact Hgen|].
  rewrite get_features_astype, Hgen. reflexivity.
Qed.

(** X4: a requested feature name that the output file does not have, or
    that it has (with at least one axis) while the mean file does not,
    raises KeyError with that name in both loaders, once the names before
    it have loaded; the names after it are not looked at. *)
Theorem missing_variable_raises_KeyError fs out_fn mean_fn std_fn conv dt
    out_file mean_file std_file tap pre v post :
  fs !! out_fn = Some out_file ->
  fs !! mean_fn = Some mean_file ->
  fs !! std_fn = Some std_file ->
  out_file !! "TAP" = Some tap ->
  2 <= length (shape tap) ->
  Forall (fun u => exists f,
            DataGenerator.load_feature out_file mean_file std_file u = Ok f)
    pre ->
  out_file !! v = None \/
    (exists a, out_file !! v = Some a /\ shape a <> [] /\
               mean_file !! v = None) ->
  DataGenerator.__get_features fs out_fn mean_fn std_fn
    (pre ++ v :: post)%list conv = Raise (KeyError v) /\
  DataSet.__get_features fs out_fn mean_fn std_fn
    (pre ++ v :: post)%list conv dt = Raise (KeyError v).
Proof.
  intros Hout Hmean Hstd Htap Hrank Hpre Hv.
  eapply get_features_loop_fails; try eassumption.
  unfold DataGenerator.load_feature, getitem.
  destruct Hv as [Hv|(a & Hv & Ha & Hm)]; rewrite Hv; simpl; [reflexivity|].
  destruct a as [| |m]; simpl in *; [contradiction| |];
    rewrite Hm; reflexivity.
Qed.

(** [PS] loads; [QAP] is in no file and [TAP] is not reached. *)
Lemma missing_variable_raises_KeyError_witness :
  example_store !! "data/out.nc" = Some out_nc /\
  example_store !! "data/SPCAM_mean.nc" = Some mean_nc /\
  example_store !! "data/SPCAM_std.nc" = Some std_nc /\
  out_nc !! "TAP"
    = Some (Arr2 (Mat float64 3 [[fl 1; fl 2; fl 3]; [fl 4; fl 5; fl 6]])) /\
  2 <= length (shape (Arr2 (Mat float64 3 [[fl 1; fl 2; fl 3];
                                           [fl 4; fl 5; fl 6]]))) /\
  Forall (fun u => exists f,
            DataGenerator.load_feature out_nc mean_nc std_nc u = Ok f)
    ["PS"] /\
  out_nc !! "QAP" = None /\
  DataGenerator.__get_features example_store "data/out.nc"
    "data/SPCAM_mean.nc" "data/SPCAM_std.nc" ["PS"; "QAP"; "TAP"] false
    = Raise (KeyError "QAP") /\
  DataSet.__get_features example_store "data/out.nc"
    "data/SPCAM_mean.nc" "data/SPCAM_std.nc" ["PS"; "QAP"; "TAP"] false float32
    = Raise (KeyError "QAP").
Proof.
  assert (Hrank : 2 <= length (shape (Arr2 (Mat float64 3 [[fl 1; fl 2; fl 3];
                                                  [fl 4; fl 5; fl 6]]))))
    by (simpl; lia).
  assert (Hpre : Forall (fun u => exists f,
                   DataGenerator.load_feature out_nc mean_nc std_nc u = Ok f)
                   ["PS"]).
  { constructor; [|constructor]. eexists. vm_compute. reflexivity. }
  do 4 (split; [reflexivity|]).
  split; [exact Hrank|]. split; [exact Hpre|]. split; [reflexivity|].
  apply (missing_variable_raises_KeyError example_store "data/out.nc"
           "data/SPCAM_mean.nc" "data/SPCAM_std.nc" false float32
           out_nc mean_nc std_nc _ ["PS"] "QAP" ["TAP"]
           eq_refl eq_refl eq_refl eq_refl Hrank Hpre).
  left. reflexivity.
Defined.

(** X5: a variable of [z] levels whose mean is a vector of [k] values,
    with [k] not [z], 1 or with [z] not 1, cannot be broadcast: both
    loaders raise ValueError at that name. *)
Theorem statistics_length_mismatch_raises fs out_fn mean_fn std_fn conv dt
    out_file mean_file std_file tap pre v post m dm xs :
  fs !! out_fn = Some out_file ->
  fs !! mean_fn = Some mean_file ->
  fs !! std_fn = Some std_file ->
  out_file !! "TAP" = Some tap ->
  2 <= length (shape tap) ->
  Forall (fun u => exists f,
            DataGenerator.load_feature out_file mean_file std_file u = Ok f)
    pre ->
  out_file !! v = Some (Arr2 m) ->
  mean_file !! v = Some (Arr1 dm xs) ->
  length xs <> length (m_rows m) ->
  length xs <> 1 ->
  length (m_rows m) <> 1 ->
  DataGenerator.__get_features fs out_fn mean_fn std_fn
    (pre ++ v :: post)%list conv = Raise ValueError /\
  DataSet.__get_features fs out_fn mean_fn std_fn
    (pre ++ v :: post)%list conv dt = Raise ValueError.
Proof.
  intros Hout Hmean Hstd Htap Hrank Hpre Hv Hm Hne Hk Hz.
  eapply get_features_loop_fails; try eassumption.
  unfold DataGenerator.load_feature, getitem, value, np_sub, broadcast2.
  rewrite Hv. simpl. rewrite Hm. simpl.
  rewrite bdim_1_r. simpl. unfold bdim.
  destruct (length (m_rows m) =? length xs) eqn:E1;
    [apply Nat.eqb_eq in E1; lia|].
  destruct (length (m_rows m) =? 1) eqn:E2; [apply Nat.eqb_eq in E2; lia|].
  destruct (length xs =? 1) eqn:E3; [apply Nat.eqb_eq in E3; lia|].
  reflexivity.
Qed.

(** The two-level [TAP] with a mean of three values. *)
Lemma statistics_length_mismatch_raises_witness :
  DataGenerator.__get_features store_long_mean "data/out.nc"
    "data/SPCAM_mean.nc" "data/SPCAM_std.nc" ["PS"; "TAP"] false
    = Raise ValueError /\
  DataSet.__get_features store_long_mean "data/out.nc"
    "data/SPCAM_mean.nc" "data/SPCAM_std.nc" ["PS"; "TAP"] false float32
    = Raise ValueError.
Proof.
  assert (Hrank : 2 <= length (shape (Arr2 (Mat float64 3 [[fl 1; fl 2; fl 3];
                                                  [fl 4; fl 5; fl 6]]))))
    by (simpl; lia).
  assert (Hpre : Forall (fun u => exists f,
                   DataGenerator.load_feature out_nc
                     (<["TAP" := Arr1 float64 [fl 1; fl 2; fl 3]]> mean_nc)
                     std_nc u = Ok f) ["PS"]).
  { constructor; [|constructor]. eexists. vm_compute. reflexivity. }
  apply (statistics_length_mismatch_raises store_long_mean "data/out.nc"
           "data/SPCAM_mean.nc" "data/SPCAM_std.nc" false float32
           out_nc _ std_nc _ ["PS"] "TAP" []
           (Mat float64 3 [[fl 1; fl 2; fl 3]; [fl 4; fl 5; fl 6]])
           float64 [fl 1; fl 2; fl 3]
           eq_refl eq_refl eq_refl eq_refl Hrank Hpre eq_refl eq_refl);
    simpl; lia.
Defined.

(** ** Empty groups *)


Lemma stack_last_raises l e : stack_last l = Raise e -> e = ValueError.
Proof.
  unfold stack_last. destruct l as [|m0 ms]; [congruence|].
  destruct (forallb _ ms); [discriminate|congruence].
Qed.

Lemma filter_none {A} (p : A -> bool) (l : list A) :
  Forall (fun x => p x = false) l -> List.filter p l = [].
Proof.
  induction 1 as [|x l Hx _ IH]; simpl; [reflexivity|]. rewrite Hx. exact IH.
Qed.

(** X6: [np.concatenate] and [np.stack] refuse an empty list. So with no
    feature name both loaders raise ValueError, and in convolution mode
    they raise ValueError unless at least one loaded variable has a single
    level and at least one has more than one. *)
Theorem empty_feature_group_raises fs out_fn mean_fn std_fn conv dt
    out_file mean_file std_file tap names f_list :
  fs !! out_fn = Some out_file ->
  fs !! mean_fn = Some mean_file ->
  fs !! std_fn = Some std_file ->
  out_file !! "TAP" = Some tap ->
  2 <= length (shape tap) ->
  mapM (DataGenerator.load_feature out_file mean_file std_file) names
    = Ok f_list ->
  (conv = true ->
   Forall (fun f => m_ncols f <> 1) f_list \/
   Forall (fun f => m_ncols f <= 1) f_list) ->
  (conv = false -> names = []) ->
  DataGenerator.__get_features fs out_fn mean_fn std_fn names conv
    = Raise ValueError /\
  DataSet.__get_features fs out_fn mean_fn std_fn names conv dt
    = Raise ValueError.
Proof.
  intros Hout Hmean Hstd Htap Hrank Hload Hgroups Hnil.
  assert (Hgen : DataGenerator.__get_features fs out_fn mean_fn std_fn names
                   conv = Raise ValueError).
  { unfold DataGenerator.__get_features, File, getitem.
    rewrite Hout, Hmean, Hstd. simpl. rewrite Htap. simpl.
    assert (Hshape : exists n, shape_at tap 1 = Ok n).
    { unfold shape_at. destruct tap as [| |m]; simpl in *; try lia. eauto. }
    destruct Hshape as [n ->]. simpl. rewrite Hload. simpl.
    destruct conv.
    - destruct (Hgroups eq_refl) as [H|H].
      + assert (E : List.filter (fun f => m_ncols f =? 1) f_list = []).
        { apply filter_none. eapply Forall_impl; [exact H|].
          intros f Hf. simpl. apply Nat.eqb_neq. exact Hf. }
        rewrite E.
        destruct (stack_last _) as [a|e] eqn:Es; simpl; [reflexivity|].
        apply stack_last_raises in Es. congruence.
      + assert (E : List.filter (fun f => 1 <? m_ncols f) f_list = []).
        { apply filter_none. eapply Forall_impl; [exact H|].
          intros f Hf. simpl. apply Nat.ltb_ge. exact Hf. }
        rewrite E. reflexivity.
    - rewrite (Hnil eq_refl) in Hload. simpl in Hload.
      injection Hload as <-. reflexivity. }
  split; [exact Hgen|].
  rewrite get_features_astype, Hgen. reflexivity.
Qed.

(** Convolution mode with the two-level [TAP] alone: no single-level
    variable to concatenate. *)
Lemma empty_feature_group_raises_witness :
  exists f_list,
    mapM (DataGenerator.load_feature out_nc mean_nc std_nc) ["TAP"]
      = Ok f_list /\
    (Forall (fun f => m_ncols f <> 1) f_list \/
     Forall (fun f => m_ncols f <= 1) f_list) /\
    DataGenerator.__get_features example_store "data/out.nc"
      "data/SPCAM_mean.nc" "data/SPCAM_std.nc" ["TAP"] true
      = Raise ValueError /\
    DataSet.__get_features example_store "data/out.nc"
      "data/SPCAM_mean.nc" "data/SPCAM_std.nc" ["TAP"] true float32
      = Raise ValueError.
Proof.
  eexists.
  split; [vm_compute; reflexivity|].
  match goal with
  | |- ?G /\ _ => assert (Hgroups : G)
      by (left; constructor; [simpl; lia|constructor])
  end.
  split; [exact Hgroups|].
  assert (Hrank : 2 <= length (shape (Arr2 (Mat float64 3 [[fl 1; fl 2; fl 3];
                                                  [fl 4; fl 5; fl 6]]))))
    by (simpl; lia).
  refine (empty_feature_group_raises example_store "data/out.nc"
            "data/SPCAM_mean.nc" "data/SPCAM_std.nc" true float32
            out_nc mean_nc std_nc _ ["TAP"] _
            eq_refl eq_refl eq_refl eq_refl Hrank _ (fun _ => Hgroups) _).
  - vm_compute. reflexivity.
  - discriminate.
Defined.

(** ** Failures of the targets *)

(** X7: the two tendencies are joined along their first axis, so they
    must agree on every other axis: when the shapes of [SPDT] and [SPDQ]
    differ after the first axis (another sample count, or one stored as
    [[sample]] and the other as [[level, sample]]), both [__get_targets]
    raise ValueError; when the output file lacks [SPDT] they raise
    KeyError. *)
Theorem targets_shape_mismatch_raises fs out_fn dt out_file :
  fs !! out_fn = Some out_file ->
  (out_file !! "SPDT" = None ->
   DataGenerator.__get_targets fs out_fn = Raise (KeyError "SPDT") /\
   DataSet.__get_targets fs out_fn dt = Raise (KeyError "SPDT")) /\
  (forall a b,
     out_file !! "SPDT" = Some a ->
     out_file !! "SPDQ" = Some b ->
     tail (shape a) <> tail (shape b) ->
     DataGenerator.__get_targets fs out_fn = Raise ValueError /\
     DataSet.__get_targets fs out_fn dt = Raise ValueError).
Proof.
  intros Hout. split.
  - intros Ht. rewrite get_targets_astype.
    unfold DataGenerator.__get_targets, File, getitem.
    rewrite Hout. simpl. rewrite Ht. split; reflexivity.
  - intros a b Ha Hb Hne. rewrite get_targets_astype.
    assert (Hgen : DataGenerator.__get_targets fs out_fn = Raise ValueError).
    { unfold DataGenerator.__get_targets, File, getitem.
      rewrite Hout. simpl. rewrite Ha. simpl.
      destruct a as [da x|da xs|ma]; simpl; [reflexivity| |];
        rewrite Hb; simpl;
        destruct b as [db y|db ys|mb]; simpl in *; try reflexivity;
        try congruence.
      destruct (m_ncols ma =? m_ncols mb) eqn:E; [|reflexivity].
      apply Nat.eqb_eq in E. congruence. }
    rewrite Hgen. split; reflexivity.
Qed.

(** A heating of three samples and a moistening of two. *)
Lemma targets_shape_mismatch_raises_witness :
  DataGenerator.__get_targets store_short_SPDQ "data/out.nc"
    = Raise ValueError /\
  DataSet.__get_targets store_short_SPDQ "data/out.nc" float32
    = Raise ValueError.
Proof.
  destruct (targets_shape_mismatch_raises store_short_SPDQ "data/out.nc"
              float32 _ eq_refl) as [_ H].
  apply (H (Arr2 (Mat float64 3 [[fl 1; fl 2; fl 3]; [fl 4; fl 5; fl 6]]))
           (Arr2 (Mat float64 2 [[fl 10; fl 20]; [fl 40; fl 50]]))
           eq_refl eq_refl).
  simpl. discriminate.
Defined.

(** ** The precision of the loader's arrays *)

Lemma features_astype_dtype dt f : features_have_dtype dt (features_astype dt f).
Proof. destruct f; simpl; auto. Qed.

Lemma nd_astype_dtype dt a : nd_dtype (nd_astype dt a) = dt.
Proof. destruct a; reflexivity. Qed.

(** X8: every array a constructed [DataSet] holds has the configured
    dtype, whatever the precision of the stored data and statistics. *)
Theorem DataSet_arrays_have_dtype fs dir out mean std names tn conv dt ds :
  DataSet.__init__ fs dir out mean std names tn conv dt = Ok ds ->
  DataSet.dtype ds = dt /\
  features_have_dtype dt (DataSet.features ds) /\
  nd_dtype (DataSet.targets ds) = dt.
Proof.
  unfold DataSet.__init__. intros H.
  rewrite get_features_astype, get_targets_astype in H.
  destruct (DataGenerator.__get_features _ _ _ _ _ _) as [[n f]|];
    [|discriminate].
  destruct (DataGenerator.__get_targets _ _) as [t|]; [|discriminate].
  simpl in H. injection H as <-. simpl.
  split; [reflexivity|].
  split; [apply features_astype_dtype|apply nd_astype_dtype].
Qed.

Lemma DataSet_arrays_have_dtype_witness :
  exists ds,
    DataSet.__init__ example_store "data/" "out.nc" "SPCAM_mean.nc"
      "SPCAM_std.nc" ["TAP"; "PS"] ["SPDT"; "SPDQ"] true float32 = Ok ds /\
    DataSet.dtype ds = float32 /\
    features_have_dtype float32 (DataSet.features ds) /\
    nd_dtype (DataSet.targets ds) = float32.
Proof.
  eexists. split; [vm_compute; reflexivity|].
  eapply (DataSet_arrays_have_dtype example_store "data/" "out.nc"
            "SPCAM_mean.nc" "SPCAM_std.nc" ["TAP"; "PS"] ["SPDT"; "SPDQ"]
            true float32).
  vm_compute. reflexivity.
Defined.

(** ** Further behaviour of [generate] *)

(** X9: when the batch size exceeds the sample count, of a file of fewer
    than [2 ^ 53] samples, construction succeeds with [n_batches = 0], and
    the generator never yields: the [for] loop is empty and [while True]
    goes round for ever. (The bound keeps the float quotient from rounding
    up to 1.) *)
Theorem small_dataset_never_yields fs dir out bs names tn mode conv g :
  DataGenerator.__init__ fs dir out bs names tn mode conv = Ok g ->
  (Z.of_nat (DataGenerator.n_samples g) < 2 ^ 53)%Z ->
  DataGenerator.n_samples g < bs ->
  DataGenerator.n_batches g = 0 /\
  forall shuffle rng,
    DataGenerator.next g (DataGenerator.generate g shuffle rng)
      = DataGenerator.Hang /\
    forall k,
      DataGenerator.nth_yield g (DataGenerator.generate g shuffle rng) k = None.
Proof.
  intros Hinit Hsmall Hlt.
  apply DataGenerator_init_Ok in Hinit as (_ & _ & _ & _ & _ & Hnb & _).
  assert (H0 : DataGenerator.n_batches g = 0).
  { rewrite (Hnb Hsmall). apply Nat.div_small. exact Hlt. }
  split; [exact H0|]. intros shuffle rng.
  assert (Hhang : forall st, DataGenerator.next g st = DataGenerator.Hang).
  { intros st. unfold DataGenerator.next. rewrite H0. reflexivity. }
  split; [apply Hhang|].
  intros [|k]; simpl; rewrite Hhang; reflexivity.
Qed.

(** Three samples asked for in batches of five. *)
Lemma small_dataset_never_yields_witness :
  exists g,
    DataGenerator.__init__ example_store "data/" "out.nc" 5 ["TAP"; "PS"]
      ["SPDT"; "SPDQ"] "batches" false = Ok g /\
    (Z.of_nat (DataGenerator.n_samples g) < 2 ^ 53)%Z /\
    DataGenerator.n_samples g < 5 /\
    DataGenerator.n_batches g = 0 /\
    forall shuffle rng,
      DataGenerator.next g (DataGenerator.generate g shuffle rng)
        = DataGenerator.Hang /\
      forall k,
        DataGenerator.nth_yield g (DataGenerator.generate g shuffle rng) k
          = None.
Proof.
  eexists. split; [vm_compute; reflexivity|].
  split; [vm_compute; reflexivity|].
  split; [vm_compute; lia|].
  eapply (small_dataset_never_yields example_store "data/" "out.nc" 5
            ["TAP"; "PS"] ["SPDT"; "SPDQ"] "batches" false).
  - vm_compute. reflexivity.
  - vm_compute. reflexivity.
  - vm_compute. lia.
Defined.

Lemma take_idx_raises {A} (idx : list nat) (l : list A) e :
  take_idx idx l = Raise e -> e = IndexError.
Proof.
  unfold take_idx. induction idx as [|k idx IH]; simpl; [discriminate|].
  destruct (l !! k); simpl; [|congruence].
  destruct (mapM _ idx) as [r|e']; simpl; [discriminate|].
  intros H. injection H as <-. apply IH. reflexivity.
Qed.

Lemma take_idx_out_of_range {A} (idx : list nat) (l : list A) (k : nat) :
  k ∈ idx -> length l <= k -> take_idx idx l = Raise IndexError.
Proof.
  intros Hk Hlen.
  destruct (take_idx idx l) as [r|e] eqn:E;
    [|apply take_idx_raises in E; congruence].
  exfalso. unfold take_idx in E. revert r E Hk.
  induction idx as [|j idx IH]; intros r E Hk; [inversion Hk|].
  simpl in E.
  destruct (l !! j) as [x|] eqn:Ej; simpl in E; [|discriminate].
  destruct (mapM _ idx) as [r'|] eqn:E'; simpl in E; [|discriminate].
  apply elem_of_cons in Hk as [->|Hk].
  - apply lookup_lt_Some in Ej. lia.
  - eapply IH; [reflexivity|exact Hk].
Qed.

(** X10: the sample count comes from [TAP], the rows from the requested
    variables. In a shuffle mode other than "batches" a batch that reaches
    beyond the rows of the feature arrays raises IndexError and ends the
    generator, although construction succeeded. *)
Theorem other_modes_short_features_raise fs dir out bs names tn mode conv g i :
  DataGenerator.__init__ fs dir out bs names tn mode conv = Ok g ->
  mode <> "batches" ->
  i < DataGenerator.n_batches g ->
  features_len (DataGenerator.features g) < (i + 1) * bs ->
  forall gi,
    DataGenerator.batch g gi i = Raise IndexError /\
    DataGenerator.next g
      {| DataGenerator.gen_idxs := gi; DataGenerator.i := i |}
      = DataGenerator.Throw IndexError.
Proof.
  intros Hinit Hmode Hi Hshort gi.
  pose proof (DataGenerator_init_kind _ _ _ _ _ _ _ _ _ Hinit) as Hkind.
  pose proof (other_modes_batch_idx _ _ _ _ _ _ _ _ _ _ Hinit Hmode Hi)
    as Hidx.
  pose proof (DataGenerator_init_Ok _ _ _ _ _ _ _ _ _ Hinit)
    as (_ & _ & Hpos & Hm & _).
  assert (Hlast : (i + 1) * bs - 1 ∈ seq (i * bs) bs).
  { apply elem_of_seq. nia. }
  assert (Hbatch : DataGenerator.batch g gi i = Raise IndexError).
  { rewrite batch_other_modes_samples; [|congruence|exact Hkind].
    rewrite Hidx. simpl. unfold samples_at.
    destruct (DataGenerator.features g) as [f|f2 f1]; simpl in *.
    - unfold mat_take.
      rewrite (take_idx_out_of_range _ _ _ Hlast) by lia. reflexivity.
    - unfold arr3_take.
      destruct (take_idx _ (a3_data f2)) as [d|e] eqn:E2; simpl.
      + unfold mat_take.
        rewrite (take_idx_out_of_range _ (m_rows f1) _ Hlast); [reflexivity|].
        destruct (Nat.le_gt_cases (length (a3_data f2)) ((i + 1) * bs - 1))
          as [Hle|Hgt]; [|lia].
        rewrite (take_idx_out_of_range _ _ _ Hlast Hle) in E2. discriminate.
      + apply take_idx_raises in E2. subst e. reflexivity. }
  split; [exact Hbatch|].
  unfold DataGenerator.next. simpl.
  destruct (DataGenerator.n_batches g =? 0) eqn:E;
    [apply Nat.eqb_eq in E; lia|].
  rewrite Hbatch. reflexivity.
Qed.

(** [TAP] has three samples and [PS] two: the third batch of one sample
    raises. *)
Lemma other_modes_short_features_raise_witness :
  exists g,
    DataGenerator.__init__ store_short_PS "data/" "out.nc" 1 ["PS"]
      ["SPDT"; "SPDQ"] "samples" false = Ok g /\
    "samples" <> "batches" /\
    2 < DataGenerator.n_batches g /\
    features_len (DataGenerator.features g) < (2 + 1) * 1 /\
    forall gi,
      DataGenerator.batch g gi 2 = Raise IndexError /\
      DataGenerator.next g
        {| DataGenerator.gen_idxs := gi; DataGenerator.i := 2 |}
        = DataGenerator.Throw IndexError.
Proof.
  eexists. split; [vm_compute; reflexivity|].
  split; [discriminate|].
  split; [vm_compute; lia|].
  split; [vm_compute; lia|].
  eapply (other_modes_short_features_raise store_short_PS "data/" "out.nc" 1
            ["PS"] ["SPDT"; "SPDQ"] "samples" false).
  - vm_compute. reflexivity.
  - discriminate.
  - vm_compute. lia.
  - vm_compute. lia.
Defined.

Lemma arange_step_lookup (stop step j : nat) :
  0 < step -> j < stop / step ->
  arange_step stop step !! j = Some (j * step).
Proof.
  intros Hpos Hj. unfold arange_step. rewrite lookup_map.
  rewrite lookup_seq_lt; [reflexivity|].
  pose proof (arange_step_length stop step Hpos) as H.
  unfold arange_step in H. rewrite length_map, length_seq in H. lia.
Qed.

(** X11: in "batches" mode, whatever the draw, every batch the generator
    yields is the window [off : off + batch_size] of the features and of
    the targets, in the order of the file, for an offset [off] that is a
    multiple of [batch_size] below [n_samples]. *)
Theorem batches_mode_yields_windows fs dir out bs names tn conv g
    shuffle rng k b :
  DataGenerator.__init__ fs dir out bs names tn "batches" conv = Ok g ->
  DataGenerator.nth_yield g (DataGenerator.generate g shuffle rng) k = Some b ->
  exists off y,
    off mod bs = 0 /\
    off < DataGenerator.n_samples g /\
    nd_slice off (off + bs) (DataGenerator.targets g) = Ok y /\
    b = (features_slice off (off + bs) (DataGenerator.features g), y).
Proof.
  intros Hinit Hk.
  destruct (generate_batches_idxs _ _ _ _ _ _ _ _ shuffle rng Hinit)
    as [_ Helem].
  apply nth_yield_is_batch in Hk as [j Hj].
  remember (DataGenerator.gen_idxs (DataGenerator.generate g shuffle rng))
    as gi eqn:Egi.
  destruct (gi !! j) as [off|] eqn:Hoff.
  - destruct (batch_batches_mode_window _ _ _ _ _ _ _ _ _ _ _ Hinit Hoff)
      as (y & Hy & Hbatch).
    exists off, y.
    destruct (Helem off) as [Hmod Hlt];
      [apply list_elem_of_lookup; eauto|].
    repeat split; try assumption. congruence.
  - exfalso. revert Hj. unfold DataGenerator.batch.
    apply DataGenerator_init_Ok in Hinit as (_ & _ & _ & Hm & _).
    rewrite Hm, Hoff. discriminate.
Qed.

(** Three samples in batches of two, with the draw that keeps the
    order. *)
Lemma batches_mode_yields_windows_witness :
  exists g b,
    DataGenerator.__init__ example_store "data/" "out.nc" 2 ["TAP"; "PS"]
      ["SPDT"; "SPDQ"] "batches" true = Ok g /\
    DataGenerator.nth_yield g (DataGenerator.generate g true (fun _ => 1)) 3
      = Some b /\
    exists off y,
      off mod 2 = 0 /\
      off < DataGenerator.n_samples g /\
      nd_slice off (off + 2) (DataGenerator.targets g) = Ok y /\
      b = (features_slice off (off + 2) (DataGenerator.features g), y).
Proof.
  eexists _, _.
  split; [vm_compute; reflexivity|].
  split; [vm_compute; reflexivity|].
  eapply (batches_mode_yields_windows example_store "data/" "out.nc" 2
            ["TAP"; "PS"] ["SPDT"; "SPDQ"] true _ true (fun _ => 1) 3).
  - vm_compute. reflexivity.
  - vm_compute. reflexivity.
Defined.

Lemma nd_slice_len (a b : nat) (t y : ndarray) :
  nd_slice a b t = Ok y -> batch_len y = Nat.min (b - a) (batch_len t - a).
Proof.
  destruct t as [dt x|dt xs|m]; simpl; [discriminate| |];
    intros H; injection H as <-; simpl; unfold slice;
    rewrite length_take, length_drop; reflexivity.
Qed.

Lemma slice_length {A} (a b : nat) (l : list A) :
  a + (b - a) <= length l -> length (slice a b l) = b - a.
Proof. intros H. unfold slice. rewrite length_take, length_drop. lia. Qed.

(** X12: without a shuffle, a "batches" generator with at least one
    batch, of a file of fewer than [2 ^ 53] samples, walks the file in
    order: step [k] yields the window that starts at
    [(k mod n_batches) * batch_size], which ends within the first
    [n_samples] samples, so the remainder is never reached; the batch has
    [batch_size] samples, in every feature array and in the targets, when
    those arrays have [n_samples] rows. *)
Theorem unshuffled_batches_in_file_order fs dir out bs names tn conv g rng k :
  DataGenerator.__init__ fs dir out bs names tn "batches" conv = Ok g ->
  (Z.of_nat (DataGenerator.n_samples g) < 2 ^ 53)%Z ->
  0 < DataGenerator.n_batches g ->
  let off := k mod DataGenerator.n_batches g * bs in
  off + bs <= DataGenerator.n_samples g /\
  exists y,
    nd_slice off (off + bs) (DataGenerator.targets g) = Ok y /\
    DataGenerator.nth_yield g (DataGenerator.generate g false rng) k
      = Some (features_slice off (off + bs) (DataGenerator.features g), y) /\
    (DataGenerator.n_samples g <= features_len (DataGenerator.features g) ->
     features_rows bs
       (features_slice off (off + bs) (DataGenerator.features g))) /\
    (DataGenerator.n_samples g <= batch_len (DataGenerator.targets g) ->
     batch_len y = bs).
Proof.
  intros Hinit Hsmall Hpos off.
  pose proof (DataGenerator_init_Ok _ _ _ _ _ _ _ _ _ Hinit)
    as (_ & _ & Hbs & _ & _ & Hnb & Hidx).
  specialize (Hnb Hsmall).
  simpl in Hidx.
  pose proof (Nat.mod_upper_bound k (DataGenerator.n_batches g) ltac:(lia))
    as Hp.
  assert (Hfull : off + bs <= DataGenerator.n_samples g).
  { unfold off.
    pose proof (Nat.Div0.mul_div_le (DataGenerator.n_samples g) bs) as Hle.
    rewrite <- Hnb in Hle.
    assert ((k mod DataGenerator.n_batches g + 1) * bs
            <= DataGenerator.n_batches g * bs)
      by (apply Nat.mul_le_mono_r; lia).
    lia. }
  split; [exact Hfull|].
  assert (Hoff : DataGenerator.idxs g !! (k mod DataGenerator.n_batches g)
                 = Some off).
  { rewrite Hidx. apply arange_step_lookup; [exact Hbs|]. rewrite <- Hnb.
    exact Hp. }
  destruct (batch_batches_mode_window _ _ _ _ _ _ _ _ _ _ _ Hinit Hoff)
    as (y & Hy & Hbatch).
  exists y. split; [exact Hy|].
  split; [|split].
  - destruct (nth_yield_cycle g (DataGenerator.idxs g)) with (k := k) (i := 0)
      as (b' & Hb' & Hk'); [|exact Hpos|].
    { intros j Hj. eapply batch_batches_mode_Ok; [exact Hinit|].
      apply lookup_lt_is_Some_1. rewrite Hidx.
      rewrite arange_step_lookup; [eauto|exact Hbs|]. rewrite <- Hnb. exact Hj. }
    change (0 + k) with k in Hb'.
    unfold DataGenerator.generate. rewrite Hk'.
    rewrite Hbatch in Hb'. injection Hb' as <-. reflexivity.
  - intros Hrows.
    destruct (DataGenerator.features g) as [m|f2 f1]; simpl in Hrows |- *.
    + rewrite slice_length by lia. lia.
    + rewrite !slice_length by lia. lia.
  - intros Hrows. rewrite (nd_slice_len _ _ _ _ Hy). lia.
Qed.

(** Three samples in batches of one: step 4 yields sample 1 again. *)
Lemma unshuffled_batches_in_file_order_witness :
  exists g,
    DataGenerator.__init__ example_store "data/" "out.nc" 1 ["TAP"; "PS"]
      ["SPDT"; "SPDQ"] "batches" false = Ok g /\
    (Z.of_nat (DataGenerator.n_samples g) < 2 ^ 53)%Z /\
    0 < DataGenerator.n_batches g /\
    4 mod DataGenerator.n_batches g * 1 + 1 <= DataGenerator.n_samples g /\
    exists y,
      nd_slice (4 mod DataGenerator.n_batches g * 1)
        (4 mod DataGenerator.n_batches g * 1 + 1) (DataGenerator.targets g)
        = Ok y /\
      DataGenerator.nth_yield g (DataGenerator.generate g false (fun _ => 0)) 4
        = Some (features_slice (4 mod DataGenerator.n_batches g * 1)
                  (4 mod DataGenerator.n_batches g * 1 + 1)
                  (DataGenerator.features g), y) /\
      (DataGenerator.n_samples g <= features_len (DataGenerator.features g) ->
       features_rows 1
         (features_slice (4 mod DataGenerator.n_batches g * 1)
            (4 mod DataGenerator.n_batches g * 1 + 1)
            (DataGenerator.features g))) /\
      (DataGenerator.n_samples g <= batch_len (DataGenerator.targets g) ->
       batch_len y = 1).
Proof.
  eexists. split; [vm_compute; reflexivity|].
  split; [vm_compute; reflexivity|].
  split; [vm_compute; lia|].
  eapply (unshuffled_batches_in_file_order example_store "data/" "out.nc" 1
            ["TAP"; "PS"] ["SPDT"; "SPDQ"] false _ (fun _ => 0) 4).
  - vm_compute. reflexivity.
  - vm_compute. reflexivity.
  - vm_compute. lia.
Defined.

(** X16: for a generator over a file of fewer than [2 ^ 53] samples,
    [n_batches] is the integer quotient of [n_samples] by [batch_size]:
    [int] of the float quotient does not reach the next integer, so the
    full batches fit in the samples and fewer than [batch_size] samples
    remain. *)
Theorem n_batches_is_floor fs dir out bs names tn mode conv g :
  DataGenerator.__init__ fs dir out bs names tn mode conv = Ok g ->
  (Z.of_nat (DataGenerator.n_samples g) < 2 ^ 53)%Z ->
  DataGenerator.n_batches g = DataGenerator.n_samples g / bs /\
  DataGenerator.n_batches g * bs <= DataGenerator.n_samples g /\
  DataGenerator.n_samples g < (DataGenerator.n_batches g + 1) * bs.
Proof.
  intros Hinit Hsmall.
  apply DataGenerator_init_Ok in Hinit as (_ & _ & Hpos & _ & _ & Hnb & _).
  rewrite (Hnb Hsmall). split; [reflexivity|].
  pose proof (Nat.div_mod_eq (DataGenerator.n_samples g) bs) as E.
  pose proof (Nat.mod_upper_bound (DataGenerator.n_samples g) bs ltac:(lia)).
  nia.
Qed.

(** Three samples in batches of two: one batch. *)
Lemma n_batches_is_floor_witness :
  exists g,
    DataGenerator.__init__ example_store "data/" "out.nc" 2 ["TAP"; "PS"]
      ["SPDT"; "SPDQ"] "batches" false = Ok g /\
    (Z.of_nat (DataGenerator.n_samples g) < 2 ^ 53)%Z /\
    DataGenerator.n_batches g = DataGenerator.n_samples g / 2 /\
    DataGenerator.n_batches g * 2 <= DataGenerator.n_samples g /\
    DataGenerator.n_samples g < (DataGenerator.n_batches g + 1) * 2.
Proof.
  eexists. split; [vm_compute; reflexivity|].
  split; [vm_compute; reflexivity|].
  eapply (n_batches_is_floor example_store "data/" "out.nc" 2
            ["TAP"; "PS"] ["SPDT"; "SPDQ"] "batches" false).
  - vm_compute. reflexivity.
  - vm_compute. reflexivity.
Defined.




(** ** The layout of the feature arrays *)





(** ** Rectangular arrays stay rectangular *)






Lemma astype_wf dt (m : mat) : wf_mat m -> wf_mat (astype dt m).
Proof.
  unfold wf_mat. simpl. intros H. apply Forall_forall. intros r Hr.
  apply list_elem_of_fmap in Hr as (r0 & -> & Hr0). rewrite length_map.
  rewrite Forall_forall in H. auto.
Qed.



(** ** The arrays of convolution mode *)








(** ** The layouts on the example directory *)





